(** * CalendarSnack event management: event / attendee consistency engine

    A shallow embedding of the Lambda handlers under
    [calendarsnack-event-management/src/functions] that own durable state:

    - [create_new_event_record]       (EventStore.create)
    - [update_event]                  (EventStore.update)
    - [cancel_event_2]                (EventStore.cancel)
    - [send_event_invite]             (AttendeeLedger.record_invite)
    - [update_event_attendee_record]  (AttendeeLedger.record_rsvp)

    Every handler is a Python function that talks to DynamoDB, SNS, SES and
    SQS through module-level clients. The embedding threads one [World]
    value (table contents, published notifications, sent mails, deleted
    queue messages, log, clock) through a state-and-exception monad, and
    writes every DynamoDB request as the data the source builds: items,
    keys, SET actions and conditions. *)

From Stdlib Require Import ZArith Lia.
From stdpp Require Import gmap strings list fin_maps pretty.

Open Scope Z_scope.
Open Scope string_scope.

(* ===================================================================== *)
(** * Values

    One type serves both sides of the store boundary: a Python [str], [int],
    [bool], [None], [dict] or [list] on the handler side, and the DynamoDB
    attribute wrappers [{"S": _}], [{"N": _}], [{"BOOL": _}], [{"NULL": _}],
    [{"M": _}], [{"L": _}] on the wire. Numbers are integers. *)

#[warnings="-register-all"]
Inductive value :=
  | Null
  | Str (s : string)
  | Num (n : Z)
  | Bool (b : bool)
  | Map (m : gmap string value)
  | List (l : list value).

Fixpoint value_eq_dec (x y : value) {struct x} : Decision (x = y).
Proof.
  refine (
    match x, y with
    | Null, Null => left _
    | Str s, Str t => cast_if (decide (s = t))
    | Num n, Num k => cast_if (decide (n = k))
    | Bool b, Bool c => cast_if (decide (b = c))
    | Map m, Map k =>
        cast_if (@decide (m = k) (@gmap_eq_dec _ _ _ _ value_eq_dec m k))
    | List l, List k =>
        cast_if (@decide (l = k) (@list_eq_dec _ value_eq_dec l k))
    | _, _ => right _
    end); abstract congruence.
Defined.

#[global] Instance value_eq : EqDecision value := value_eq_dec.

(** A Python dict with string keys, and a DynamoDB item. *)
Abbreviation dict := (gmap string value) (only parsing).
Abbreviation item := (gmap string value) (only parsing).

(** [d.get(k)]: the value, or [None] when the key is missing. *)
Definition py_get (d : dict) (k : string) : value := default Null (d !! k).

(** [d.get(k, False)] as a condition, and [bool(v)] in general. *)
Definition truthy (v : value) : bool :=
  match v with
  | Null => false
  | Str s => negb (bool_decide (s = ""))
  | Num n => negb (bool_decide (n = 0))
  | Bool b => b
  | Map m => negb (bool_decide (m = ∅))
  | List l => negb (bool_decide (l = []))
  end.

(** [str(v)] for the scalars; the [repr] of a container depends on insertion
    order, which a [gmap] does not keep, so it is left undefined. *)
Definition py_str (v : value) : option string :=
  match v with
  | Null => Some "None"
  | Str s => Some s
  | Num n => Some (pretty n)
  | Bool true => Some "True"
  | Bool false => Some "False"
  | Map _ | List _ => None
  end.

(** [x == y]: a Python [bool] is the integer 0 or 1, also inside
    containers. *)
Fixpoint as_int (v : value) : value :=
  match v with
  | Bool b => Num (if b then 1 else 0)
  | Map m => Map (as_int <$> m)
  | List l => List (as_int <$> l)
  | v => v
  end.

Definition py_eq (x y : value) : bool := bool_decide (as_int x = as_int y).

(** The value of a decimal digit. *)
Definition digit_of (c : Ascii.ascii) : option Z :=
  let n := Z.of_N (Ascii.N_of_ascii c) in
  if bool_decide (48 ≤ n ≤ 57)%Z then Some (n - 48) else None.

Fixpoint digits_of (s : string) (acc : Z) : option Z :=
  match s with
  | EmptyString => Some acc
  | String c rest =>
      match digit_of c with
      | Some d => digits_of rest (10 * acc + d)
      | None => None
      end
  end.

(** The integer a text denotes for the store: decimal digits after an
    optional minus sign. *)
Definition number_of_string (s : string) : option Z :=
  match s with
  | EmptyString => None
  | String c rest =>
      if bool_decide (Ascii.N_of_ascii c = 45%N) then   (* the sign *)
        if bool_decide (rest = "") then None
        else Z.opp <$> digits_of rest 0
      else digits_of s 0
  end.

(* ===================================================================== *)
(** * The key-value store

    The table is keyed by (partition key, sort key). An update request is the
    list of SET actions of its [UpdateExpression], with the placeholders of
    [ExpressionAttributeNames] and [ExpressionAttributeValues] substituted. *)

Abbreviation key := (string * string)%type (only parsing).
Abbreviation table := (gmap key (gmap string value)) (only parsing).

Module DynamoDB.

(** A document path: [#a] or [#a.#k]. *)
Inductive path :=
  | Attr (a : string)
  | Sub (a k : string).

Inductive operand :=
  | Lit (v : value)
  | Ref (p : path)
  | IfNotExists (p : path) (d : value).

Inductive expr :=
  | Val (o : operand)
  | Plus (x y : operand)
  | Minus (x y : operand)
  | ListAppend (x y : operand).

(** [SET target = source]. *)
Record set_action := SET { target : path; source : expr }.

(** The conditions the handlers use, all on the key attributes. *)
Inductive condition :=
  | Unconditional
  | NotExists   (* attribute_not_exists(pk) and attribute_not_exists(sk) *)
  | Exists.     (* attribute_exists(pk) and attribute_exists(sk) *)

Inductive transact_item :=
  | Put (it : item) (c : condition)
  | Update (k : key) (acts : list set_action) (c : condition).

Definition get_path (it : item) (p : path) : option value :=
  match p with
  | Attr a => it !! a
  | Sub a k =>
      match it !! a with
      | Some (Map m) => m !! k
      | _ => None
      end
  end.

(** Writing below a map attribute needs the map to be there. *)
Definition set_path (it : item) (p : path) (v : value) : option item :=
  match p with
  | Attr a => Some (<[a := v]> it)
  | Sub a k =>
      match it !! a with
      | Some (Map m) => Some (<[a := Map (<[k := v]> m)]> it)
      | _ => None
      end
  end.

Definition eval_operand (it : item) (o : operand) : option value :=
  match o with
  | Lit v => Some v
  | Ref p => get_path it p
  | IfNotExists p d => Some (default d (get_path it p))
  end.

Definition eval_expr (it : item) (e : expr) : option value :=
  match e with
  | Val o => eval_operand it o
  | Plus x y =>
      match eval_operand it x, eval_operand it y with
      | Some (Num a), Some (Num b) => Some (Num (a + b))
      | _, _ => None
      end
  | Minus x y =>
      match eval_operand it x, eval_operand it y with
      | Some (Num a), Some (Num b) => Some (Num (a - b))
      | _, _ => None
      end
  | ListAppend x y =>
      match eval_operand it x, eval_operand it y with
      | Some (List a), Some (List b) => Some (List (a ++ b))
      | _, _ => None
      end
  end.

(** Two paths of one expression may not overlap. *)
Definition overlap (p q : path) : bool :=
  match p, q with
  | Attr a, Attr b | Attr a, Sub b _ | Sub a _, Attr b => bool_decide (a = b)
  | Sub a k, Sub b j => bool_decide (a = b) && bool_decide (k = j)
  end.

Fixpoint disjoint_paths (ps : list path) : bool :=
  match ps with
  | [] => true
  | p :: qs => forallb (fun q => negb (overlap p q)) qs && disjoint_paths qs
  end.

(** Every right-hand side is evaluated on the item as it was. *)
Fixpoint eval_all (it : item) (acts : list set_action)
  : option (list (path * value)) :=
  match acts with
  | [] => Some []
  | a :: rest =>
      match eval_expr it (source a), eval_all it rest with
      | Some v, Some pvs => Some ((target a, v) :: pvs)
      | _, _ => None
      end
  end.

Fixpoint write_all (it : item) (pvs : list (path * value)) : option item :=
  match pvs with
  | [] => Some it
  | (p, v) :: rest =>
      match set_path it p v with
      | Some it' => write_all it' rest
      | None => None
      end
  end.

(** [None] is the store's validation error. *)
Definition apply_update (it : item) (acts : list set_action) : option item :=
  if disjoint_paths (map target acts) then
    match eval_all it acts with
    | Some pvs => write_all it pvs
    | None => None
    end
  else None.

Definition item_key (it : item) : option key :=
  match it !! "pk", it !! "sk" with
  | Some (Str p), Some (Str s) => Some (p, s)
  | _, _ => None
  end.

(** An update of a missing key starts from the bare key (upsert). *)
Definition key_item (k : key) : item :=
  <["pk" := Str k.1]> (<["sk" := Str k.2]> ∅).

Definition holds (c : condition) (cur : option item) : bool :=
  match c, cur with
  | Unconditional, _ => true
  | NotExists, None => true
  | NotExists, Some _ => false
  | Exists, Some _ => true
  | Exists, None => false
  end.

Definition target_key (w : transact_item) : option key :=
  match w with
  | Put it _ => item_key it
  | Update k _ _ => Some k
  end.

Definition apply_item (t : table) (w : transact_item) : option table :=
  match w with
  | Put it c =>
      match item_key it with
      | Some k => if holds c (t !! k) then Some (<[k := it]> t) else None
      | None => None
      end
  | Update k acts c =>
      if holds c (t !! k) then
        match apply_update (default (key_item k) (t !! k)) acts with
        | Some it' => Some (<[k := it']> t)
        | None => None
        end
      else None
  end.

Fixpoint apply_items (t : table) (ws : list transact_item) : option table :=
  match ws with
  | [] => Some t
  | w :: rest =>
      match apply_item t w with
      | Some t' => apply_items t' rest
      | None => None
      end
  end.

Fixpoint target_keys (ws : list transact_item) : option (list key) :=
  match ws with
  | [] => Some []
  | w :: rest =>
      match target_key w, target_keys rest with
      | Some k, Some ks => Some (k :: ks)
      | _, _ => None
      end
  end.

(** All or nothing; the error is the [ClientError] code. One transaction
    may not address an item twice. *)
Definition transact_write_items (t : table) (ws : list transact_item)
  : string + table :=
  match target_keys ws with
  | None => inl "ValidationException"
  | Some ks =>
      if bool_decide (NoDup ks) then
        match apply_items t ws with
        | Some t' => inr t'
        | None => inl "TransactionCanceledException"
        end
      else inl "ValidationException"
  end.

Definition update_item (t : table) (k : key) (acts : list set_action)
  : string + table :=
  match apply_item t (Update k acts Unconditional) with
  | Some t' => inr t'
  | None => inl "ValidationException"
  end.

Definition put_item (t : table) (it : item) (c : condition)
  : string + table :=
  match item_key it with
  | None => inl "ValidationException"
  | Some k =>
      if holds c (t !! k) then inr (<[k := it]> t)
      else inl "ConditionalCheckFailedException"
  end.

End DynamoDB.

Import DynamoDB.

(* ===================================================================== *)
(** * The world a handler runs in *)

Inductive exn :=
  | KeyError (k : string)
  | TypeError
  | AttributeError
  | ClientError (code : string)
  | Exception (msg : string).

Inductive log_entry :=
  | Warning (msg : string)       (* logging.warning *)
  | Logged (e : exn).            (* logging.exception *)

Record World := mkWorld {
  db : gmap key (gmap string value);   (* the DynamoDB table *)
  published : list (string * value);   (* SNS: topic and JSON payload *)
  mailed : list (string * value);      (* SES: recipient and subject *)
  deleted : list string;               (* SQS: receipt handles deleted *)
  logged : list log_entry;
  utcnow : Z                           (* int(datetime.utcnow().timestamp()) *)
}.

Definition with_db (t : table) (w : World) : World :=
  mkWorld t (published w) (mailed w) (deleted w) (logged w) (utcnow w).
Definition with_published (p : list (string * value)) (w : World) : World :=
  mkWorld (db w) p (mailed w) (deleted w) (logged w) (utcnow w).
Definition with_mailed (m : list (string * value)) (w : World) : World :=
  mkWorld (db w) (published w) m (deleted w) (logged w) (utcnow w).
Definition with_deleted (d : list string) (w : World) : World :=
  mkWorld (db w) (published w) (mailed w) d (logged w) (utcnow w).
Definition with_logged (l : list log_entry) (w : World) : World :=
  mkWorld (db w) (published w) (mailed w) (deleted w) l (utcnow w).
Definition with_utcnow (n : Z) (w : World) : World :=
  mkWorld (db w) (published w) (mailed w) (deleted w) (logged w) n.

Inductive outcome (A : Type) :=
  | Returns (a : A)
  | Raises (e : exn).
Arguments Returns {A} a.
Arguments Raises {A} e.

(** State and exceptions: what was done before a [raise] stays done. *)
Definition M (A : Type) : Type := World -> outcome A * World.

#[global] Instance M_ret : MRet M := fun A a w => (Returns a, w).
#[global] Instance M_bind : MBind M := fun A B f m w =>
  match m w with
  | (Returns a, w') => f a w'
  | (Raises e, w') => (Raises e, w')
  end.

Definition raise {A} (e : exn) : M A := fun w => (Raises e, w).
Definition read {A} (f : World -> A) : M A := fun w => (Returns (f w), w).
Definition modify (f : World -> World) : M unit := fun w => (Returns tt, f w).

Definition warning (msg : string) : M unit :=
  modify (fun w => with_logged (logged w ++ [Warning msg]) w).

(** [d[k]] *)
Definition subscript (d : dict) (k : string) : M value :=
  match d !! k with
  | Some v => mret v
  | None => raise (KeyError k)
  end.

(** A value put where the client wants a string: [{"S": v}], or an
    attribute name. Anything else fails the client's parameter check. *)
Definition as_string (v : value) : M string :=
  match v with
  | Str s => mret s
  | _ => raise TypeError
  end.

(** ["prefix{}".format(v)] *)
Definition format (prefix : string) (v : value) : M string :=
  match py_str v with
  | Some s => mret (prefix +:+ s)
  | None => raise TypeError
  end.

(* ===================================================================== *)
(** * The [thirtyone.aws] helpers *)

Module aws.

(** Modelled from the spec: [aws.get_dynamodb_record_for] of the
    [thirtyone] layer is the KeyValueStore "get"; the handlers test its
    result with [not], [.get] and subscripts, so a missing record is the
    empty dict. The sort key defaults to the partition key. *)
Definition get_dynamodb_record_for (pk sk : string) : M dict :=
  read (fun w => default ∅ (db w !! (pk, sk))).

(** Modelled from the spec: [aws.publish_sns_message] hands one outbound
    event to the notification component. *)
Definition publish_sns_message (message : value) (arn : string) : M unit :=
  modify (fun w => with_published (published w ++ [(arn, message)]) w).

(** Modelled from the spec: [aws.delete_sqs_message] acknowledges
    (removes) one message from the transport. *)
Definition delete_sqs_message (task_id : string) : M unit :=
  modify (fun w => with_deleted (deleted w ++ [task_id]) w).

(** Modelled from the spec: [aws.send_ses_invite_to_attendee] is the
    outbound invite delivery, outside the engine. *)
Definition send_ses_invite_to_attendee (subject : value) (recipient : string)
  : M unit :=
  modify (fun w => with_mailed (mailed w ++ [(recipient, subject)]) w).

End aws.

(* ===================================================================== *)
(** * The message processor

    [lambda_handler], [delete_successfully_processed_sqs],
    [valid_sqs_message_from], [clean_up_successful_task] and [cleanup_all]
    are the same text in every [app.py]; they are embedded once, over the
    handler's own [process_request_from]. *)

(** One SQS record: its receipt handle, and the request that
    [aws.get_sqs_message_with_sns_notification_from] decodes from it. *)
Record SqsRecord (A : Type) := mkRecord {
  receiptHandle : option string;
  message : A
}.
Arguments mkRecord {A} _ _.
Arguments receiptHandle {A} _.
Arguments message {A} _.

Section MessageProcessor.
Context {A : Type}.
Variable process_request_from : SqsRecord A -> M unit.

Definition valid_sqs_message_from (request : SqsRecord A) : bool :=
  match receiptHandle request with
  | Some h => truthy (Str h)
  | None => false
  end.

Definition clean_up_successful_task (task_id : string) : M unit :=
  aws.delete_sqs_message task_id.

Definition delete_successfully_processed_sqs (message : SqsRecord A)
  : M unit :=
  if valid_sqs_message_from message then
    match receiptHandle message with
    | Some h => clean_up_successful_task h
    | None => raise (KeyError "receiptHandle")
    end
  else mret tt.

Definition cleanup_all (tasks : gmap string Z) : M string :=
  if truthy (default (Bool false) (Num <$> tasks !! "failed")) then
    match tasks !! "failed" with
    | Some n => raise (Exception (pretty n +:+ " tasks failed"))
    | None => raise (KeyError "failed")
    end
  else mret "Complete".

(** The [for] loop of [lambda_handler] with its [try]/[except]. *)
Fixpoint process_records (records : list (SqsRecord A))
    (tasks : gmap string Z) (w : World) : gmap string Z * World :=
  match records with
  | [] => (tasks, w)
  | record :: rest =>
      match process_request_from record w with
      | (Returns _, w') => process_records rest tasks w'
      | (Raises error, w') =>
          process_records rest
            (<["failed" := default 0 (tasks !! "failed") + 1]> tasks)
            (with_logged (logged w' ++ [Logged error]) w')
      end
  end.

Definition lambda_handler (records : list (SqsRecord A)) : M string :=
  fun w =>
    let '(tasks, w') := process_records records ∅ w in
    cleanup_all tasks w'.

End MessageProcessor.

(** The module-level [dynamodb] client, run against the world's table. *)
Module dynamodb.

Definition transact_write_items (TransactItems : list transact_item)
  : M unit :=
  fun w =>
    match DynamoDB.transact_write_items (db w) TransactItems with
    | inr t => (Returns tt, with_db t w)
    | inl code => (Raises (ClientError code), w)
    end.

Definition update_item (Key : key) (UpdateExpression : list set_action)
  : M unit :=
  fun w =>
    match DynamoDB.update_item (db w) Key UpdateExpression with
    | inr t => (Returns tt, with_db t w)
    | inl code => (Raises (ClientError code), w)
    end.

Definition put_item (Item : item) (ConditionExpression : condition)
  : M unit :=
  fun w =>
    match DynamoDB.put_item (db w) Item ConditionExpression with
    | inr t => (Returns tt, with_db t w)
    | inl code => (Raises (ClientError code), w)
    end.

End dynamodb.

(** [try: m except ...: h] *)
Definition try_except {A} (m : M A) (h : exn -> M A) : M A :=
  fun w =>
    match m w with
    | (Raises e, w') => h e w'
    | r => r
    end.

(** [except ClientError as error: raise Exception(error) from error] *)
Definition reraise_client_error {A} (e : exn) : M A :=
  match e with
  | ClientError code => raise (Exception code)
  | _ => raise e
  end.

(** Modelled from the spec: [aws.get_sqs_message_with_sns_notification_from]
    decodes the domain request from the transport envelope. *)
Definition get_sqs_message_with_sns_notification_from {A}
    (record : SqsRecord A) : M A :=
  mret (message record).

(* ===================================================================== *)
(** * send_event_invite/app.py  (AttendeeLedger.record_invite) *)

Module send_event_invite.

(** [invite["request"]]: the keys the handler subscripts are fields, the
    one it reads with [.get] is optional. *)
Record InviteRequest := mkRequest {
  uid : string;
  email : string;
  origin : string;
  prodid : string;
  partstat : string;
  name : option string
}.

Record Invite := mkInvite {
  request : InviteRequest;
  event : dict
}.

Definition attendee_has_not_been_sent (event_invite : InviteRequest)
  : M bool :=
  record ← aws.get_dynamodb_record_for
             ("event#" +:+ uid event_invite)
             ("attendee#" +:+ email event_invite);
  mret (negb (truthy (Map record))).

(** The ical body comes from the external [Ical] class; the mail is kept
    as recipient and subject. *)
Definition send_invite_to_attendee (invite : Invite) : M unit :=
  subject ← subscript (event invite) "summary";
  aws.send_ses_invite_to_attendee subject (email (request invite)).

Definition get_attendee_record_for (invite : InviteRequest)
    (organizer : string) : M transact_item :=
  timestamp ← read utcnow;
  mret (Put
    (<["pk" := Str ("event#" +:+ uid invite)]>
    (<["sk" := Str ("attendee#" +:+ email invite)]>
    (<["attendee" := Str (email invite)]>
    (<["mailto" := Str organizer]>
    (<["created" := Num timestamp]>
    (<["name" := Str (default "customer" (name invite))]>
    (<["status" := Str (partstat invite)]>
    (<["origin" := Str (origin invite)]>
    (<["prodid" := Str "-//31events//calendarsnack//en"]>
    (<["history" :=
         List [List [Str (partstat invite);
                     Num timestamp;
                     Str "-//31events//calendarsnack//en"]]]>
     ∅))))))))))
    NotExists).

Definition get_statistics_record_update_for (primary_key sort_key : string)
    (invite : InviteRequest) : transact_item :=
  Update (primary_key, sort_key)
    [ SET (Attr "attendees")
          (Plus (Ref (Attr "attendees")) (Lit (Num 1)));
      SET (Sub "origin" (origin invite))
          (Plus (IfNotExists (Sub "origin" (origin invite)) (Num 0))
                (Lit (Num 1)));
      SET (Sub "prodid" (prodid invite))
          (Plus (IfNotExists (Sub "prodid" (prodid invite)) (Num 0))
                (Lit (Num 1)));
      SET (Sub "rsvp" (partstat invite))
          (Plus (Ref (Sub "rsvp" (partstat invite))) (Lit (Num 1))) ]
    Unconditional.

Definition get_event_invite_limit_record_update_for
    (invite : InviteRequest) : transact_item :=
  Update ("event#" +:+ uid invite, "event#" +:+ uid invite)
    [ SET (Attr "invite_limit")
          (Minus (Ref (Attr "invite_limit")) (Lit (Num 1))) ]
    Unconditional.

Definition create_record_of_attendee (invite : Invite) : M unit :=
  try_except
    (mailto ← subscript (event invite) "mailto";
     organizer ← as_string mailto;
     attendee ← get_attendee_record_for (request invite) organizer;
     dynamodb.transact_write_items
       [ (* Creates attendee invite record *)
         attendee;
         (* Decreases send limit for event *)
         get_event_invite_limit_record_update_for (request invite);
         (* Updates event statistics with new invite *)
         get_statistics_record_update_for
           ("event#" +:+ uid (request invite))
           ("event_statistics#" +:+ uid (request invite))
           (request invite);
         (* Updates organizer statistics with new invite *)
         get_statistics_record_update_for
           ("organizer#" +:+ organizer)
           ("organizer_statistics#" +:+ organizer)
           (request invite);
         (* Updates system statistics with new invite *)
         get_statistics_record_update_for
           "system#" "system_statistics#" (request invite) ])
    reraise_client_error.

Definition process_request_from (record : SqsRecord Invite) : M unit :=
  invite ← get_sqs_message_with_sns_notification_from record;
  fresh ← attendee_has_not_been_sent (request invite);
  (if fresh : bool then
     create_record_of_attendee invite;;
     send_invite_to_attendee invite
   else if bool_decide (origin (request invite) = "test") then
     send_invite_to_attendee invite
   else mret tt);;
  delete_successfully_processed_sqs record.

End send_event_invite.

(* ===================================================================== *)
(** * update_event_attendee_record/app.py  (AttendeeLedger.record_rsvp) *)

Module update_event_attendee_record.

(** The reply request of [format_reply_request_from]. The handler never
    reads [dtstamp]; [name] is read with [.get]. *)
Record EventReply := mkReply {
  uid : string;
  attendee : string;
  partstat : string;
  prodid : string;
  dtstamp : Z;
  name : option string
}.

Definition get_current_attendee_record_for (event_reply : EventReply)
  : M dict :=
  aws.get_dynamodb_record_for
    ("event#" +:+ uid event_reply)
    ("attendee#" +:+ attendee event_reply).

Definition get_organizer_for (uid : string) : M value :=
  record ← aws.get_dynamodb_record_for ("event#" +:+ uid) ("event#" +:+ uid);
  subscript record "mailto".

Definition get_attendee_update_record_for (event_reply : EventReply)
  : M transact_item :=
  timestamp ← read utcnow;
  mret (Update
    ("event#" +:+ uid event_reply, "attendee#" +:+ attendee event_reply)
    [ SET (Attr "created") (Val (Lit (Num timestamp)));
      SET (Attr "prodid") (Val (Lit (Str (prodid event_reply))));
      SET (Attr "status") (Val (Lit (Str (partstat event_reply))));
      SET (Attr "history")
          (ListAppend (Ref (Attr "history"))
             (Lit (List [List [Str (partstat event_reply);
                               Str (pretty timestamp);
                               Str (prodid event_reply)]]))) ]
    Exists).

Definition get_shared_attendee_record_for (event_reply : EventReply)
  : M transact_item :=
  timestamp ← read utcnow;
  mailto ← get_organizer_for (uid event_reply);
  organizer ← as_string mailto;
  mret (Put
    (<["pk" := Str ("event#" +:+ uid event_reply)]>
    (<["sk" := Str ("attendee#" +:+ attendee event_reply)]>
    (<["mailto" := Str organizer]>
    (<["attendee" := Str (attendee event_reply)]>
    (<["created" := Num timestamp]>
    (<["name" := Str (default "customer" (name event_reply))]>
    (<["status" := Str (partstat event_reply)]>
    (<["origin" := Str "shared"]>
    (<["prodid" := Str (prodid event_reply)]>
    (<["history" :=
         List [List [Str (partstat event_reply);
                     Num timestamp;
                     Str (prodid event_reply)]]]>
     ∅))))))))))
    NotExists).

(** [previous_status] names an attribute, so the client wants a string. *)
Definition get_statistics_record_update_for (event_reply : EventReply)
    (primary_key sort_key : string) (previous_status : value)
    (shared : bool) : M transact_item :=
  let update_expression :=
    [ SET (Sub "rsvp" (partstat event_reply))
          (Plus (Ref (Sub "rsvp" (partstat event_reply))) (Lit (Num 1))) ] in
  if negb shared then
    (* Configures request for an existing attendee *)
    previous ← as_string previous_status;
    mret (Update (primary_key, sort_key)
      (update_expression ++
       [ SET (Sub "rsvp" previous)
             (Minus (Ref (Sub "rsvp" previous)) (Lit (Num 1))) ])
      Unconditional)
  else
    (* Configures request for new attendee with shared origin *)
    mret (Update (primary_key, sort_key)
      (update_expression ++
       [ SET (Attr "attendees")
             (Plus (Ref (Attr "attendees")) (Lit (Num 1)));
         SET (Sub "origin" "shared")
             (Plus (IfNotExists (Sub "origin" "shared") (Num 0))
                   (Lit (Num 1)));
         SET (Sub "prodid" (prodid event_reply))
             (Plus (IfNotExists (Sub "prodid" (prodid event_reply)) (Num 0))
                   (Lit (Num 1))) ])
      Unconditional).

Definition submit_updated_event_attend_record_for (event_reply : EventReply)
    (previous_status : value) : M unit :=
  try_except
    (organizer ← get_organizer_for (uid event_reply);
     (* Updates event attendee record with new reply *)
     attendee ← get_attendee_update_record_for event_reply;
     (* Updates event statistics with new reply *)
     event_stats ← get_statistics_record_update_for event_reply
       ("event#" +:+ uid event_reply)
       ("event_statistics#" +:+ uid event_reply)
       previous_status false;
     (* Updates organizer statistics with new reply *)
     organizer_pk ← format "organizer#" organizer;
     organizer_sk ← format "organizer_statistics#" organizer;
     organizer_stats ← get_statistics_record_update_for event_reply
       organizer_pk organizer_sk previous_status false;
     (* Updates system statistics with new reply *)
     system_stats ← get_statistics_record_update_for event_reply
       "system#" "system_statistics#" previous_status false;
     dynamodb.transact_write_items
       [attendee; event_stats; organizer_stats; system_stats])
    reraise_client_error.

Definition submit_shared_event_attend_record_for (event_reply : EventReply)
  : M unit :=
  try_except
    (organizer ← get_organizer_for (uid event_reply);
     (* Updates event attendee record with new reply *)
     attendee ← get_shared_attendee_record_for event_reply;
     (* Updates event statistics with new reply *)
     event_stats ← get_statistics_record_update_for event_reply
       ("event#" +:+ uid event_reply)
       ("event_statistics#" +:+ uid event_reply)
       Null true;
     (* Updates organizer statistics with new reply *)
     organizer_pk ← format "organizer#" organizer;
     organizer_sk ← format "organizer_statistics#" organizer;
     organizer_stats ← get_statistics_record_update_for event_reply
       organizer_pk organizer_sk Null true;
     (* Updates system statistics with new reply *)
     system_stats ← get_statistics_record_update_for event_reply
       "system#" "system_statistics#" Null true;
     dynamodb.transact_write_items
       [attendee; event_stats; organizer_stats; system_stats])
    reraise_client_error.

Definition update_event_attendee_record_with (event_reply : EventReply)
  : M unit :=
  attendee_record ← get_current_attendee_record_for event_reply;
  if truthy (default (Bool false) (attendee_record !! "status")) then
    if negb (py_eq (default (Str "") (attendee_record !! "status"))
                   (Str (partstat event_reply))) then
      previous_status ← subscript attendee_record "status";
      submit_updated_event_attend_record_for event_reply previous_status
    else
      warning "RSVP already processed"
  else
    warning "Attendee does not exist";;
    submit_shared_event_attend_record_for event_reply.

Definition process_request_from (record : SqsRecord EventReply) : M unit :=
  event_reply ← get_sqs_message_with_sns_notification_from record;
  update_event_attendee_record_with event_reply;;
  delete_successfully_processed_sqs record.

End update_event_attendee_record.

(* ===================================================================== *)
(** * update_event/app.py  (EventStore.update) *)

Module update_event.

Definition get_event_uid_from (uid : value) : M dict :=
  pk ← format "original_event#" uid;
  aws.get_dynamodb_record_for pk pk.

Definition get_event_from (uid : value) : M dict :=
  pk ← format "event#" uid;
  aws.get_dynamodb_record_for pk pk.

Definition update_fields : list string :=
  [ "summary"; "summary_html"; "location"; "location_html";
    "dtend"; "dtstart"; "description"; "description_html" ].

(** The loop stops at the first field that differs. *)
Definition event_updated (original_event new_event : dict) : bool :=
  existsb
    (fun val => negb (py_eq (py_get original_event val)
                            (py_get new_event val)))
    update_fields.

(** [{"S": str(v)}] *)
Definition S_str (v : value) : M value :=
  match py_str v with
  | Some s => mret (Str s)
  | None => raise TypeError
  end.

(** [{"N": str(v)}]: the store reads the text as a number. The digits of
    a Python [int] are that number, and so is a [str] of decimal digits
    with an optional minus sign; the text of [None], of a [bool] or of a
    container is no number. Numbers are integers here: a numeric text with
    a fraction or an exponent has no counterpart in [value] and is taken as
    no number. *)
Definition N_str (v : value) : M value :=
  match v with
  | Num n => mret (Num n)
  | Str s =>
      match number_of_string s with
      | Some n => mret (Num n)
      | None => raise (ClientError "ValidationException")
      end
  | _ => raise (ClientError "ValidationException")
  end.

(** [v += 1] *)
Definition increment (v : value) : M value :=
  match v with
  | Num n => mret (Num (n + 1))
  | Bool b => mret (Num ((if b then 1 else 0) + 1))
  | _ => raise TypeError
  end.

Definition update_event (original_event new_event : dict) : M dict :=
  let original_event :=
    foldl (fun event val => <[val := py_get new_event val]> event)
          original_event update_fields in
  timestamp ← read utcnow;
  let original_event := <["dtstamp" := Num timestamp]> original_event in
  let original_event :=
    <["last_modified" := Num timestamp]> original_event in
  sequence ← subscript original_event "sequence";
  sequence ← increment sequence;
  let original_event := <["sequence" := sequence]> original_event in
  uid ← subscript original_event "uid";
  pk ← format "event#" uid;
  summary ← S_str (py_get original_event "summary");
  summary_html ← S_str (py_get original_event "summary_html");
  location ← S_str (py_get original_event "location");
  location_html ← S_str (py_get original_event "location_html");
  dtend ← N_str (py_get original_event "dtend");
  dtstart ← N_str (py_get original_event "dtstart");
  description ← S_str (py_get original_event "description");
  description_html ← S_str (py_get original_event "description_html");
  sequence ← N_str (py_get original_event "sequence");
  dynamodb.update_item (pk, pk)
    [ SET (Attr "dtstamp") (Val (Lit (Num timestamp)));
      SET (Attr "last_modified") (Val (Lit (Num timestamp)));
      SET (Attr "summary") (Val (Lit summary));
      SET (Attr "summary_html") (Val (Lit summary_html));
      SET (Attr "location") (Val (Lit location));
      SET (Attr "location_html") (Val (Lit location_html));
      SET (Attr "dtend") (Val (Lit dtend));
      SET (Attr "dtstart") (Val (Lit dtstart));
      SET (Attr "description") (Val (Lit description));
      SET (Attr "description_html") (Val (Lit description_html));
      SET (Attr "sequence") (Val (Lit sequence)) ];;
  mret original_event.

Definition stage_update_fields : list string :=
  [ "description"; "description_html"; "dtend"; "dtstamp"; "dtstart";
    "last_modified"; "location"; "location_html"; "status"; "mailto";
    "method"; "original_organizer"; "organizer"; "sequence"; "summary";
    "summary_html"; "uid" ].

Definition stage_updated (event : dict) : dict :=
  foldl (fun staged_event field =>
           <[field := default (Str "") (event !! field)]> staged_event)
        ∅ stage_update_fields.

Definition send_notification_of_updated (event : dict) : M unit :=
  aws.publish_sns_message (Map event) "EVENT_UPDATED".

Definition process_request_from (record : SqsRecord dict) : M unit :=
  request ← get_sqs_message_with_sns_notification_from record;
  original_uid ← subscript request "original_uid";
  original_event ← get_event_uid_from original_uid;
  uid ← subscript original_event "uid";
  event ← get_event_from uid;
  if event_updated event request then
    updated_event ← update_event event request;
    send_notification_of_updated (stage_updated updated_event);;
    delete_successfully_processed_sqs record
  else mret tt.

End update_event.

(* ===================================================================== *)
(** * cancel_event_2/app.py  (EventStore.cancel) *)

Module cancel_event_2.

Definition get_event_uid_from (uid : value) : M dict :=
  pk ← format "original_event#" uid;
  aws.get_dynamodb_record_for pk pk.

Definition get_event_from (uid : value) : M dict :=
  pk ← format "event#" uid;
  aws.get_dynamodb_record_for pk pk.

Definition event_is_not_cancelled (event : dict) : M bool :=
  status ← subscript event "status";
  mret (negb (py_eq status (Str "cancelled"))).

(** The source mutates [event] in place and returns the store's response,
    which the caller merges into [event]; the response has none of the
    keys [stage_cancelled] reads, so the mutated dict is returned. *)
Definition cancel_event (event : dict) : M dict :=
  timestamp ← read utcnow;
  let event := <["method" := Str "cancel"]> event in
  let event := <["status" := Str "cancelled"]> event in
  let event := <["dtstamp" := Num timestamp]> event in
  let event := <["last_modified" := Num timestamp]> event in
  sequence ← subscript event "sequence";
  sequence ← update_event.increment sequence;
  let event := <["sequence" := sequence]> event in
  uid ← subscript event "uid";
  pk ← format "event#" uid;
  sequence ← update_event.N_str (py_get event "sequence");
  dynamodb.update_item (pk, pk)
    [ SET (Attr "dtstamp") (Val (Lit (Num timestamp)));
      SET (Attr "last_modified") (Val (Lit (Num timestamp)));
      SET (Attr "method") (Val (Lit (Str "cancel")));
      SET (Attr "status") (Val (Lit (Str "cancelled")));
      SET (Attr "sequence") (Val (Lit sequence)) ];;
  mret event.

Definition cancellation_fields : list string :=
  [ "description"; "dtend"; "dtstamp"; "dtstart"; "last_modified";
    "location"; "status"; "mailto"; "method"; "original_organizer";
    "organizer"; "sequence"; "summary"; "uid" ].

Definition stage_cancelled (event : dict) : dict :=
  foldl (fun staged_event field =>
           <[field := default (Str "") (event !! field)]> staged_event)
        ∅ cancellation_fields.

Definition send_notification_of_cancelled (event : dict) : M unit :=
  aws.publish_sns_message (Map event) "EVENT_CANCELLED".

Definition process_request_from (record : SqsRecord dict) : M unit :=
  request ← get_sqs_message_with_sns_notification_from record;
  original_uid ← subscript request "original_uid";
  original_event ← get_event_uid_from original_uid;
  uid ← subscript original_event "uid";
  event ← get_event_from uid;
  not_cancelled ← event_is_not_cancelled event;
  (if not_cancelled : bool then
     event ← cancel_event event;
     send_notification_of_cancelled (stage_cancelled event)
   else mret tt);;
  delete_successfully_processed_sqs record.

End cancel_event_2.

(* ===================================================================== *)
(** * create_new_event_record/app.py  (EventStore.create) *)

Module create_new_event_record.

(** The dict built by [get_organizer_details]. *)
Record Organizer := mkOrganizer {
  email : value;
  paid : value;
  statistics : value
}.

(** What [create_new_event_record] returns: the store's response, or
    [error.response] of the cancelled transaction. *)
Inductive response :=
  | Committed
  | ErrorResponse (code : string).

Definition rsvp_seed : gmap string value :=
  <["accepted" := Num 0]>
  (<["declined" := Num 0]>
  (<["noaction" := Num 0]>
  (<["tentative" := Num 0]> ∅))).

Definition create_organizer_statistics_record (organizer : value)
  : M unit :=
  try_except
    (pk ← format "organizer#" organizer;
     sk ← format "organizer_statistics#" organizer;
     dynamodb.put_item
       (<["pk" := Str pk]>
       (<["sk" := Str sk]>
       (<["events" := Num 0]>
       (<["attendees" := Num 0]>
       (<["origin" := Map ∅]>
       (<["prodid" := Map ∅]>
       (<["rsvp" := Map rsvp_seed]> ∅)))))))
       NotExists)
    (fun error =>
       match error with
       | ClientError code =>
           if bool_decide (code = "ConditionalCheckFailedException") then
             warning "Organzizer statistics record already exists"
           else raise error
       | _ => raise error
       end).

(** [request[k]["S"]] on a staged (wire format) record. *)
Definition subscript_S (request : dict) (k : string) : M string :=
  v ← subscript request k;
  match v with
  | Str s => mret s
  | _ => raise (KeyError "S")
  end.

Definition get_organizer_event_update_query (organizer_email : value)
  : M transact_item :=
  pk ← format "organizer#" organizer_email;
  sk ← format "organizer_statistics#" organizer_email;
  mret (Update (pk, sk)
    [ SET (Attr "events")
          (Plus (IfNotExists (Attr "events") (Num 0)) (Lit (Num 1))) ]
    Unconditional).

Definition get_original_event_record_from (request : dict) : M item :=
  original_uid ← subscript_S request "original_uid";
  uid ← subscript_S request "uid";
  mailto ← subscript_S request "mailto";
  mret (<["pk" := Str ("original_event#" +:+ original_uid)]>
       (<["sk" := Str ("original_event#" +:+ original_uid)]>
       (<["uid" := Str uid]>
       (<["mailto" := Str mailto]> ∅)))).

Definition get_statistics_record_for (request : dict) : M item :=
  uid ← subscript_S request "uid";
  mailto ← subscript_S request "mailto";
  mret (<["pk" := Str ("event#" +:+ uid)]>
       (<["sk" := Str ("event_statistics#" +:+ uid)]>
       (<["tenant" := Str "thirtyone"]>
       (<["mailto" := Str mailto]>
       (<["attendees" := Num 0]>
       (<["origin" := Map ∅]>
       (<["prodid" := Map ∅]>
       (<["rsvp" := Map rsvp_seed]> ∅)))))))).

(** [organizer.get("statistics", {}).get("events", 1)] *)
Definition events_sent (organizer : Organizer) : M value :=
  match statistics organizer with
  | Map m => mret (default (Num 1) (m !! "events"))
  | _ => raise AttributeError
  end.

Definition send_notification_of_new_event (event : dict)
    (organizer : Organizer) : M unit :=
  let event := delete "description" event in
  events ← events_sent organizer;
  let event := <["paid" := paid organizer]> (<["events" := events]> event) in
  aws.publish_sns_message (Map event) "NEW_EVENT_CREATED".

Definition send_notification_of_updated_event (event : dict) : M unit :=
  aws.publish_sns_message (Map event) "EVENT_UPDATED".

Definition create_new_event_record (event staged_event : dict)
    (organizer : Organizer) : M response :=
  try_except
    ((* Creates lookup for original_uid to uid *)
     lookup ← get_original_event_record_from staged_event;
     (* Creates record for event rsvp statistics *)
     stats ← get_statistics_record_for staged_event;
     (* Updates organizer statistics with new event *)
     mailto ← subscript event "mailto";
     events ← get_organizer_event_update_query mailto;
     dynamodb.transact_write_items
       [ Put lookup NotExists;
         (* Creates record with event information *)
         Put staged_event Unconditional;
         Put stats Unconditional;
         events ];;
     send_notification_of_new_event event organizer;;
     mret Committed)
    (fun error =>
       match error with
       | ClientError code =>
           (if bool_decide (code = "TransactionCanceledException") then
              warning "Event record already exists";;
              send_notification_of_updated_event event
            else raise error);;
           mret (ErrorResponse code)
       | _ => raise error
       end).

End create_new_event_record.

(* ===================================================================== *)
(** * Vocabulary of the properties *)

(** The key schema of the single table. *)
Definition original_event_key (original_uid : string) : key :=
  ("original_event#" +:+ original_uid, "original_event#" +:+ original_uid).
Definition event_key (uid : string) : key :=
  ("event#" +:+ uid, "event#" +:+ uid).
Definition event_statistics_key (uid : string) : key :=
  ("event#" +:+ uid, "event_statistics#" +:+ uid).
Definition attendee_key (uid email : string) : key :=
  ("event#" +:+ uid, "attendee#" +:+ email).
Definition organizer_statistics_key (mailto : string) : key :=
  ("organizer#" +:+ mailto, "organizer_statistics#" +:+ mailto).
Definition system_statistics_key : key :=
  ("system#", "system_statistics#").

(** [sum(rsvp.values())] *)
Definition count (v : value) : Z :=
  match v with
  | Num n => n
  | _ => 0
  end.

Definition rsvp_total (rsvp : gmap string value) : Z :=
  map_fold (fun _ v total => count v + total) 0 rsvp.

(** [sum(rsvp.values()) == attendees] on one statistics record. *)
Definition balanced (it : item) : bool :=
  match it !! "attendees", it !! "rsvp" with
  | Some (Num attendees), Some (Map rsvp) =>
      bool_decide (rsvp_total rsvp = attendees)
  | _, _ => false
  end.

(** A counter of a map attribute, [None] when the bucket is missing. *)
Definition bucket (it : item) (attribute name : string) : option value :=
  get_path it (Sub attribute name).

(** The table with the items at the given keys replaced. *)
Definition bump (attribute name : string) (delta : Z) (it : item) : item :=
  match it !! attribute with
  | Some (Map m) =>
      <[attribute := Map (<[name := Num (count (default (Num 0) (m !! name))
                                          + delta)]> m)]> it
  | _ => it
  end.

Definition is_count (o : option value) : bool :=
  match o with
  | Some (Num _) => true
  | _ => false
  end.

(** The bucket is there and holds a number. *)
Definition has_bucket (it : item) (attribute name : string) : bool :=
  is_count (bucket it attribute name).

(** The map is there; the bucket holds a number or is still missing. *)
Definition open_bucket (it : item) (attribute name : string) : bool :=
  match it !! attribute with
  | Some (Map m) =>
      match m !! name with
      | None | Some (Num _) => true
      | _ => false
      end
  | _ => false
  end.

Definition one_more_attendee (it : item) : item :=
  <["attendees" := Num (count (py_get it "attendees") + 1)]> it.

Definition history_of (it : item) : list value :=
  match it !! "history" with
  | Some (List h) => h
  | _ => []
  end.

(** The attendee record after a status-changing reply. *)
Definition answered_attendee (partstat prodid : string) (now : Z)
    (it : item) : item :=
  <["history" := List (history_of it
                       ++ [List [Str partstat; Str (pretty now); Str prodid]])]>
  (<["status" := Str partstat]>
  (<["prodid" := Str prodid]>
  (<["created" := Num now]> it))).

(** One unit moved from bucket [previous] to bucket [new]. *)
Definition moved (previous new : string) (it : item)
  : item :=
  bump "rsvp" previous (-1) (bump "rsvp" new 1 it).

(** One attendee more, counted in bucket [status]. *)
Definition adds_one (status : string) (before after : item) : Prop :=
  ∃ attendees rsvp n,
    before !! "attendees" = Some (Num attendees) ∧
    before !! "rsvp" = Some (Map rsvp) ∧
    rsvp !! status = Some (Num n) ∧
    after !! "attendees" = Some (Num (attendees + 1)) ∧
    after !! "rsvp" = Some (Map (<[status := Num (n + 1)]> rsvp)).

(** One unit moved between two buckets, the attendees as they were. *)
Definition moves_one (previous new : string) (before after : item)
  : Prop :=
  ∃ rsvp p n,
    previous ≠ new ∧
    before !! "rsvp" = Some (Map rsvp) ∧
    rsvp !! previous = Some (Num p) ∧
    rsvp !! new = Some (Num n) ∧
    after !! "attendees" = before !! "attendees" ∧
    after !! "rsvp"
    = Some (Map (<[previous := Num (p - 1)]> (<[new := Num (n + 1)]> rsvp))).

(** Every balanced record of [t] is still there and balanced in [t']. *)
Definition preserved (t t' : table) : Prop :=
  ∀ k it, t !! k = Some it → balanced it = true →
          ∃ it', t' !! k = Some it' ∧ balanced it' = true.

(** One attendee more, counted by origin, by client and by status; a bucket
    of [origin] or [prodid] that was missing starts from zero. *)
Definition counts_one (origin prodid status : string) (before after : item)
  : Prop :=
  adds_one status before after ∧
  bucket after "origin" origin
  = Some (Num (count (default (Num 0) (bucket before "origin" origin)) + 1)) ∧
  bucket after "prodid" prodid
  = Some (Num (count (default (Num 0) (bucket before "prodid" prodid)) + 1)).

(** The statistics record after one more attendee was counted. *)
Definition counted (origin prodid status : string) (it : item) : item :=
  bump "rsvp" status 1
    (bump "prodid" prodid 1
       (bump "origin" origin 1
          (one_more_attendee it))).

(** The event record after one invite was taken from its allowance. *)
Definition one_invite_less (it : item) : item :=
  <["invite_limit" := Num (count (py_get it "invite_limit") - 1)]> it.

(** Some invite or reply message was handled without an exception, taking
    the world from [w] to [w']. *)
Definition handled (w w' : World) : Prop :=
  (∃ record,
     send_event_invite.process_request_from record w = (Returns tt, w')) ∨
  (∃ record,
     update_event_attendee_record.process_request_from record w
     = (Returns tt, w')).

(** The three statistics scopes an attendee of [uid] counts in. *)
Definition scopes (uid mailto : string) : list key :=
  [ event_statistics_key uid;
    organizer_statistics_key mailto;
    system_statistics_key ].

(** Each of the three statistics records of an attendee of [uid] was there
    and has changed as [R] says. *)
Definition in_scopes (uid mailto : string) (R : item → item → Prop)
    (t t' : table) : Prop :=
  ∀ k, k ∈ scopes uid mailto →
       ∃ before after, t !! k = Some before ∧ t' !! k = Some after
                       ∧ R before after.

(** The record at [k] is there and has a counter in each named rsvp
    bucket. *)
Definition ready (t : table) (names : list string) (k : key) : bool :=
  match t !! k with
  | Some it => forallb (has_bucket it "rsvp") names
  | None => false
  end.

(** The record at [k] can count one more attendee of this origin, client
    and status. *)
Definition countable (t : table) (origin prodid status : string) (k : key)
  : bool :=
  match t !! k with
  | Some it =>
      is_count (it !! "attendees")
      && open_bucket it "origin" origin
      && open_bucket it "prodid" prodid
      && has_bucket it "rsvp" status
  | None => false
  end.

(** The record at [k], for a key known to be there. *)
Definition at_key (t : table) (k : key) : item := default ∅ (t !! k).

(** A write that keeps every balanced record balanced. *)
Definition keeps_balance (x : transact_item) : Prop :=
  ∀ t t', apply_item t x = Some t' → preserved t t'.

(** What a computation guarantees whenever it returns. *)
Definition ensures {A} (m : M A) (Q : A → Prop) : Prop :=
  ∀ w a w', m w = (Returns a, w') → preserved (db w) (db w') ∧ Q a.

(** The compared fields stored as strings; the other two are instants. *)
Definition text_fields : list string :=
  [ "summary"; "summary_html"; "location"; "location_html";
    "description"; "description_html" ].

(** A value [str] is modelled for. *)
Definition printable (v : value) : bool :=
  match py_str v with
  | Some _ => true
  | None => false
  end.

(** What [update_event] stores for a text field: [str] of the incoming
    value. *)
Definition stored_text (v : value) : value :=
  Str (default "" (py_str v)).

(** A counter that is a number, or not there yet. *)
Definition absent_or_count (o : option value) : bool :=
  match o with
  | None | Some (Num _) => true
  | _ => false
  end.

(* ===================================================================== *)
(** * A small table to run the handlers on *)

Module Sample.

Definition statistics (pk sk : string) : item :=
  <["pk" := Str pk]>
  (<["sk" := Str sk]>
  (<["events" := Num 0]>
  (<["attendees" := Num 0]>
  (<["origin" := Map ∅]>
  (<["prodid" := Map ∅]>
  (<["rsvp" := Map create_new_event_record.rsvp_seed]> ∅)))))).

Definition party : item :=
  <["pk" := Str "event#E1"]>
  (<["sk" := Str "event#E1"]>
  (<["uid" := Str "E1"]>
  (<["original_uid" := Str "X"]>
  (<["mailto" := Str "a@x.com"]>
  (<["organizer" := Str "Ann"]>
  (<["status" := Str "confirmed"]>
  (<["method" := Str "request"]>
  (<["sequence" := Num 0]>
  (<["invite_limit" := Num 5]>
  (<["summary" := Str "Party"]>
  (<["summary_html" := Str "<b>Party</b>"]>
  (<["location" := Str "Home"]>
  (<["location_html" := Str "Home"]>
  (<["description" := Str "Bring cake"]>
  (<["description_html" := Str "Bring cake"]>
  (<["dtstart" := Num 1700000000]>
  (<["dtend" := Num 1700003600]>
  (<["dtstamp" := Num 900]>
  (<["last_modified" := Num 900]> ∅))))))))))))))))))).

Definition lookup : item :=
  <["pk" := Str "original_event#X"]>
  (<["sk" := Str "original_event#X"]>
  (<["uid" := Str "E1"]>
  (<["mailto" := Str "a@x.com"]> ∅))).

(** The table after [create]: lookup, event and the three scopes. *)
Definition created : gmap key (gmap string value) :=
  <[original_event_key "X" := lookup]>
  (<[event_key "E1" := party]>
  (<[event_statistics_key "E1" :=
       statistics "event#E1" "event_statistics#E1"]>
  (<[organizer_statistics_key "a@x.com" :=
       statistics "organizer#a@x.com" "organizer_statistics#a@x.com"]>
  (<[system_statistics_key :=
       statistics "system#" "system_statistics#"]> ∅)))).

Definition world : World := mkWorld created [] [] [] [] 1000.

Definition bulk_invite : send_event_invite.Invite :=
  send_event_invite.mkInvite
    (send_event_invite.mkRequest
       "E1" "b@y.com" "bulk" "31events//ses" "noaction" None)
    party.

Definition reply (partstat : string) : update_event_attendee_record.EventReply :=
  update_event_attendee_record.mkReply
    "E1" "b@y.com" partstat "microsoft//outlook" 990 None.

(** The world after the invite went out, a moment later. *)
Definition invited : World :=
  with_utcnow 2000
    (snd (send_event_invite.create_record_of_attendee bulk_invite world)).

(** ... and after the attendee answered "tentative". *)
Definition answered : World :=
  with_utcnow 3000
    (snd (update_event_attendee_record.update_event_attendee_record_with
            (reply "tentative") invited)).

(** An update request that repeats the stored event. *)
Definition same_request : dict :=
  <["original_uid" := Str "X"]> party.

(** An update request with a new place. *)
Definition moved_request : dict :=
  <["location" := Str "Garden"]> same_request.

(** The world after the event was cancelled, a moment later. *)
Definition cancelled : World :=
  with_utcnow 4000
    (snd (cancel_event_2.process_request_from
            (mkRecord (Some "r-0") same_request) world)).

(** The table before the event exists: the two wider scopes only. *)
Definition registered : World :=
  mkWorld
    (<[organizer_statistics_key "a@x.com" :=
         statistics "organizer#a@x.com" "organizer_statistics#a@x.com"]>
    (<[system_statistics_key :=
         statistics "system#" "system_statistics#"]> ∅))
    [] [] [] [] 500.

Definition organizer : create_new_event_record.Organizer :=
  create_new_event_record.mkOrganizer
    (Str "a@x.com") Null
    (Map (statistics "organizer#a@x.com"
            "organizer_statistics#a@x.com")).

(** The same invite, carrying an answer already. *)
Definition accepted_invite : send_event_invite.Invite :=
  send_event_invite.mkInvite
    (send_event_invite.mkRequest
       "E1" "b@y.com" "bulk" "31events//ses" "accepted" None)
    party.

(** The sample table with the rsvp counters of the event's statistics
    missing. *)
Definition uncounted : World :=
  with_db
    (<[event_statistics_key "E1" :=
         <["rsvp" := Map ∅]>
         (statistics "event#E1" "event_statistics#E1")]> created)
    world.

End Sample.

(* ===================================================================== *)
(** * Facts about values, keys and updates *)

#[local] Arguments String.append : simpl never.

Lemma as_int_Str v s : as_int v = Str s ↔ v = Str s.
Proof. destruct v; simpl; split; intros; try discriminate; congruence. Qed.

Lemma py_eq_Str v s : py_eq v (Str s) = bool_decide (v = Str s).
Proof. unfold py_eq. simpl. apply bool_decide_ext, as_int_Str. Qed.

Lemma py_eq_refl v : py_eq v v = true.
Proof. unfold py_eq. by apply bool_decide_true. Qed.

(** Keys of the schema differ as soon as their prefixes do. *)
Ltac key_neq :=
  let H := fresh in
  intros H; cbv [String.append attendee_key event_key event_statistics_key
                 organizer_statistics_key system_statistics_key
                 original_event_key] in H;
  congruence.


Ltac keys_nodup :=
  repeat (apply NoDup_cons; split;
          [ rewrite ?not_elem_of_cons; repeat split;
            try (apply not_elem_of_nil); key_neq | ]);
  apply NoDup_nil; exact I.

Lemma rsvp_total_insert_fresh (r : gmap string value) k v :
  r !! k = None → rsvp_total (<[k := v]> r) = count v + rsvp_total r.
Proof.
  intros Hk. unfold rsvp_total.
  rewrite map_fold_insert_L; [done | | done].
  intros. lia.
Qed.

Lemma rsvp_total_insert (r : gmap string value) k v old :
  r !! k = Some old →
  rsvp_total (<[k := v]> r) = rsvp_total r + count v - count old.
Proof.
  intros Hk.
  rewrite <- (insert_delete_id r k old) at 2 by done.
  rewrite <- (insert_delete_eq r k v).
  rewrite !rsvp_total_insert_fresh by apply lookup_delete_eq. lia.
Qed.

Lemma balanced_spec (it : gmap string value) :
  balanced it = true ↔
  ∃ a r, it !! "attendees" = Some (Num a) ∧ it !! "rsvp" = Some (Map r)
         ∧ rsvp_total r = a.
Proof.
  unfold balanced. split.
  - destruct (it !! "attendees") as [[]|]; try done.
    destruct (it !! "rsvp") as [[]|]; try done.
    intros H%bool_decide_eq_true. eauto.
  - intros (a & r & -> & -> & H). by apply bool_decide_eq_true.
Qed.

(** ** Updates the handlers send, run forward *)

Lemma bump_lookup_ne a n d it b : a ≠ b → bump a n d it !! b = it !! b.
Proof.
  intros Hab. unfold bump. destruct (it !! a) as [[]|]; try done.
  by rewrite lookup_insert_ne.
Qed.

Lemma bump_lookup_eq a n d it m :
  it !! a = Some (Map m) →
  bump a n d it !! a
  = Some (Map (<[n := Num (count (default (Num 0) (m !! n)) + d)]> m)).
Proof. intros H. unfold bump. rewrite H. apply lookup_insert_eq. Qed.

Lemma apply_update_invite (it : gmap string value) o p s :
  is_count (it !! "attendees") = true →
  open_bucket it "origin" o = true →
  open_bucket it "prodid" p = true →
  has_bucket it "rsvp" s = true →
  apply_update it
    [ SET (Attr "attendees") (Plus (Ref (Attr "attendees")) (Lit (Num 1)));
      SET (Sub "origin" o)
          (Plus (IfNotExists (Sub "origin" o) (Num 0)) (Lit (Num 1)));
      SET (Sub "prodid" p)
          (Plus (IfNotExists (Sub "prodid" p) (Num 0)) (Lit (Num 1)));
      SET (Sub "rsvp" s) (Plus (Ref (Sub "rsvp" s)) (Lit (Num 1))) ]
  = Some (bump "rsvp" s 1 (bump "prodid" p 1 (bump "origin" o 1
            (one_more_attendee it)))).
Proof.
  unfold is_count, open_bucket, has_bucket, bucket, apply_update, one_more_attendee, py_get.
  intros Ha Ho Hp Hs. simpl in *.
  destruct (it !! "attendees") as [[]|] eqn:Ea; try done.
  destruct (it !! "origin") as [[| | | |om|]|] eqn:Eo; try done.
  destruct (it !! "prodid") as [[| | | |pm|]|] eqn:Ep; try done.
  destruct (it !! "rsvp") as [[| | | |r|]|] eqn:Er; try done.
  destruct (r !! s) as [[]|] eqn:Es; try done.
  simpl.
  destruct (om !! o) as [[]|] eqn:Eoo; try done;
  destruct (pm !! p) as [[]|] eqn:Epp; try done; simpl;
  rewrite ?lookup_insert_ne by done; rewrite ?Eo, ?Ep, ?Er; simpl;
  rewrite ?lookup_insert_ne by done; rewrite ?Eo, ?Ep, ?Er; simpl;
  rewrite ?lookup_insert_ne by done; rewrite ?Eo, ?Ep, ?Er; simpl;
  unfold bump; simpl;
  rewrite ?lookup_insert_ne by done; rewrite ?Eo, ?Ep, ?Er; simpl;
  rewrite ?lookup_insert_ne by done; rewrite ?Eo, ?Ep, ?Er; simpl;
  rewrite ?lookup_insert_ne by done; rewrite ?Eo, ?Ep, ?Er; simpl;
  rewrite ?Eoo, ?Epp, ?Es; simpl; reflexivity.
Qed.

Lemma apply_update_moved (it : gmap string value) new previous :
  has_bucket it "rsvp" new = true →
  has_bucket it "rsvp" previous = true →
  new ≠ previous →
  apply_update it
    ([ SET (Sub "rsvp" new) (Plus (Ref (Sub "rsvp" new)) (Lit (Num 1))) ] ++
     [ SET (Sub "rsvp" previous)
           (Minus (Ref (Sub "rsvp" previous)) (Lit (Num 1))) ])
  = Some (moved previous new it).
Proof.
  unfold has_bucket, is_count, bucket, apply_update, moved, bump.
  intros Hn Hp Hne. simpl in *.
  destruct (it !! "rsvp") as [[| | | |r|]|] eqn:Er; try done.
  destruct (r !! new) as [[]|] eqn:En; try done.
  destruct (r !! previous) as [[]|] eqn:Ep; try done.
  rewrite (bool_decide_false (new = previous)) by done. simpl.
  rewrite Er, !lookup_insert_eq, !lookup_insert_ne, Ep by done. simpl.
  rewrite !insert_insert_eq. repeat f_equal; lia.
Qed.

Lemma apply_update_answered (it : gmap string value) partstat prodid now h :
  it !! "history" = Some (List h) →
  apply_update it
    [ SET (Attr "created") (Val (Lit (Num now)));
      SET (Attr "prodid") (Val (Lit (Str prodid)));
      SET (Attr "status") (Val (Lit (Str partstat)));
      SET (Attr "history")
          (ListAppend (Ref (Attr "history"))
             (Lit (List [List [Str partstat; Str (pretty now); Str prodid]]))) ]
  = Some (answered_attendee partstat prodid now it).
Proof.
  intros Hh. unfold apply_update, answered_attendee, history_of. simpl.
  rewrite Hh. reflexivity.
Qed.

Lemma apply_item_update (t : gmap key (gmap string value)) k acts it it' :
  t !! k = Some it →
  apply_update it acts = Some it' →
  apply_item t (Update k acts Unconditional) = Some (<[k := it']> t).
Proof. intros Hk Hu. simpl. rewrite Hk. simpl. by rewrite Hu. Qed.

Section rsvp_run.
Import update_event_attendee_record.

Lemma rsvp_changed_run (w : World) (reply : EventReply) previous m
  (rec ev es os ss : gmap string value) h :
db w !! attendee_key (uid reply) (attendee reply) = Some rec →
rec !! "status" = Some (Str previous) →
previous ≠ "" →
previous ≠ partstat reply →
rec !! "history" = Some (List h) →
db w !! event_key (uid reply) = Some ev →
ev !! "mailto" = Some (Str m) →
db w !! event_statistics_key (uid reply) = Some es →
db w !! organizer_statistics_key m = Some os →
db w !! system_statistics_key = Some ss →
has_bucket es "rsvp" (partstat reply) = true →
has_bucket es "rsvp" previous = true →
has_bucket os "rsvp" (partstat reply) = true →
has_bucket os "rsvp" previous = true →
has_bucket ss "rsvp" (partstat reply) = true →
has_bucket ss "rsvp" previous = true →
update_event_attendee_record_with reply w
= (Returns tt,
   with_db
     (<[system_statistics_key := moved previous (partstat reply) ss]>
     (<[organizer_statistics_key m := moved previous (partstat reply) os]>
     (<[event_statistics_key (uid reply) :=
          moved previous (partstat reply) es]>
     (<[attendee_key (uid reply) (attendee reply) :=
          answered_attendee (partstat reply) (prodid reply) (utcnow w) rec]>
      (db w))))) w).
Proof.
unfold attendee_key, event_key, event_statistics_key,
  organizer_statistics_key, system_statistics_key.
intros Hrec Hst Hne Hch Hh Hev Hm Hes Hos Hss He1 He2 Ho1 Ho2 Hs1 Hs2.
unfold update_event_attendee_record_with, get_current_attendee_record_for,
  aws.get_dynamodb_record_for, mbind, M_bind, read.

rewrite Hrec. simpl. rewrite Hst. simpl.
rewrite (bool_decide_false (previous = "")) by done. simpl.
rewrite py_eq_Str.
rewrite bool_decide_false by congruence. simpl.
unfold subscript. rewrite Hst. simpl.
unfold submit_updated_event_attend_record_for, try_except, get_organizer_for,
  aws.get_dynamodb_record_for, mbind, M_bind, read, subscript.
rewrite Hev. simpl. rewrite Hm. simpl.
unfold dynamodb.transact_write_items, DynamoDB.transact_write_items.
simpl target_keys. cbv iota beta.
rewrite bool_decide_true by keys_nodup.
unfold apply_items.
unfold apply_item at 1. rewrite Hrec. simpl holds. cbv iota. simpl default.
rewrite (apply_update_answered _ _ _ _ h) by done.
erewrite apply_item_update;
  [ | rewrite !lookup_insert_ne by key_neq; eassumption
    | by apply apply_update_moved ].
erewrite apply_item_update;
  [ | rewrite !lookup_insert_ne by key_neq; eassumption
    | by apply apply_update_moved ].
erewrite apply_item_update;
  [ | rewrite !lookup_insert_ne by key_neq; eassumption
    | by apply apply_update_moved ].
reflexivity.
Qed.

End rsvp_run.

(* ===================================================================== *)
(** * Balance of the statistics records *)

Lemma adds_one_balanced status before after :
  adds_one status before after → balanced before = true → balanced after = true.
Proof.
  intros (a & r & n & Ha & Hr & Hn & Ha' & Hr') (a0 & r0 & Ha0 & Hr0 & Hsum)%balanced_spec.
  apply balanced_spec. exists (a + 1), (<[status := Num (n + 1)]> r).
  repeat split; try done.
  rewrite (rsvp_total_insert _ _ _ _ Hn). simpl. simplify_eq. lia.
Qed.

Lemma moves_one_balanced previous new before after :
  moves_one previous new before after →
  balanced before = true → balanced after = true.
Proof.
  intros (r & p & n & Hne & Hr & Hp & Hn & Ha' & Hr')
         (a0 & r0 & Ha0 & Hr0 & Hsum)%balanced_spec.
  apply balanced_spec. eexists a0, _. rewrite Ha', Hr'.
  repeat split; try done.
  rewrite (rsvp_total_insert _ _ _ (Num p)) by by rewrite lookup_insert_ne.
  rewrite (rsvp_total_insert _ _ _ _ Hn). simpl. simplify_eq. lia.
Qed.

Section Ensures.
Context {A B : Type}.

Lemma preserved_refl t : preserved t t.
Proof. intros k it ??. eauto. Qed.

Lemma preserved_trans t1 t2 t3 :
  preserved t1 t2 → preserved t2 t3 → preserved t1 t3.
Proof.
  intros H12 H23 k it Hk Hb.
  destruct (H12 k it Hk Hb) as (it2 & Hk2 & Hb2). eauto.
Qed.

Lemma ensures_ret (a : A) (Q : A → Prop) : Q a → ensures (mret a) Q.
Proof. intros HQ w a' w' [= <- <-]. split; [apply preserved_refl | done]. Qed.

Lemma ensures_raise e (Q : A → Prop) : ensures (raise e) Q.
Proof. intros w a w' [=]. Qed.

Lemma ensures_read (f : World → A) : ensures (read f) (λ _, True).
Proof. intros w a w' [= <- <-]. split; [apply preserved_refl | done]. Qed.

Lemma ensures_bind (m : M A) (f : A → M B) Q Q' :
  ensures m Q → (∀ a, Q a → ensures (f a) Q') → ensures (m ≫= f) Q'.
Proof.
  intros Hm Hf w b w'. unfold mbind, M_bind.
  destruct (m w) as [[a|e] w1] eqn:Em; [|done].
  intros Hrun. destruct (Hm _ _ _ Em) as [H1 HQ].
  destruct (Hf a HQ _ _ _ Hrun) as [H2 HQ'].
  split; [by eapply preserved_trans | done].
Qed.

Lemma ensures_weaken (m : M A) (Q Q' : A → Prop) :
  ensures m Q → (∀ a, Q a → Q' a) → ensures m Q'.
Proof. intros Hm HQ w a w' Hrun. destruct (Hm _ _ _ Hrun). eauto. Qed.

Lemma ensures_try_reraise (m : M A) Q :
  ensures m Q → ensures (try_except m reraise_client_error) Q.
Proof.
  intros Hm w a w'. unfold try_except.
  destruct (m w) as [[a0|e] w1] eqn:Em.
  - intros [= <- <-]. eauto.
  - by destruct e.
Qed.
End Ensures.

Lemma ensures_modify (f : World → World) :
  (∀ w, db (f w) = db w) → ensures (modify f) (λ _, True).
Proof.
  intros Hf w a w' [= <- <-]. split; [|done]. rewrite Hf. apply preserved_refl.
Qed.

(** ** Writes that keep the balance *)

Lemma put_absent_keeps_balance it : keeps_balance (Put it NotExists).
Proof.
  intros t t' Hrun k old Hk Hb. simpl in Hrun.
  destruct (item_key it) as [k0|]; [|done].
  destruct (t !! k0) eqn:Hk0; simpl in Hrun; [done|].
  injection Hrun as <-. exists old. split; [|done].
  rewrite lookup_insert_ne; [done | congruence].
Qed.

Lemma update_keeps_balance k acts c :
  (∀ it it', apply_update it acts = Some it' →
             balanced it = true → balanced it' = true) →
  keeps_balance (Update k acts c).
Proof.
  intros Hacts t t' Hrun k' old Hk Hb. simpl in Hrun.
  destruct (holds c (t !! k)); [|done].
  destruct (apply_update _ acts) as [it'|] eqn:Hu; [|done].
  injection Hrun as <-.
  destruct (decide (k = k')) as [<-|Hne].
  - rewrite Hk in Hu. simpl in Hu. rewrite lookup_insert_eq. eauto.
  - rewrite lookup_insert_ne by done. eauto.
Qed.

Lemma apply_items_preserved ws :
  Forall keeps_balance ws →
  ∀ t t', apply_items t ws = Some t' → preserved t t'.
Proof.
  induction 1 as [|x ws Hx _ IH]; intros t t'; simpl.
  - intros [= <-]. apply preserved_refl.
  - destruct (apply_item t x) as [t1|] eqn:E1; [|done].
    intros Hrest. eapply preserved_trans; eauto.
Qed.

Lemma ensures_transact ws :
  Forall keeps_balance ws →
  ensures (dynamodb.transact_write_items ws) (λ _, True).
Proof.
  intros Hws w [] w'. unfold dynamodb.transact_write_items,
    DynamoDB.transact_write_items.
  destruct (target_keys ws); [|done].
  destruct (bool_decide _); [|done].
  destruct (apply_items (db w) ws) eqn:E; [|done].
  intros [= <-]. split; [|done]. simpl. by eapply apply_items_preserved.
Qed.

(** Reading an attribute back through the writes above it. *)
Ltac lookups :=
  repeat first [ rewrite lookup_insert_eq
               | rewrite lookup_insert_ne by done ].

(** Inverting a successful update: decide every lookup the run depends on. *)
Ltac lookup_known H :=
  match goal with
  | E : ?m !! ?k = _ |- _ =>
      lazymatch type of H with
      | context [m !! k] => rewrite E in H
      end
  end.

Ltac lookup_case H :=
  match type of H with
  | context [match ?x with _ => _ end] =>
      lazymatch x with
      | _ !! _ =>
          let E := fresh "E" in
          destruct x as [[]|] eqn:E; try discriminate H
      end
  | context [default _ ?x] =>
      lazymatch x with
      | _ !! _ =>
          let E := fresh "E" in
          destruct x as [[]|] eqn:E; try discriminate H
      end
  end.

Ltac invert_update H :=
  unfold apply_update in H; simpl in H;
  repeat first
    [ discriminate H
    | progress (rewrite lookup_insert_eq in H)
    | progress (rewrite lookup_insert_ne in H by done)
    | lookup_known H
    | lookup_case H
    | progress (simpl in H) ].

Lemma invite_update_adds_one (it it' : gmap string value) o p s :
  apply_update it
    [ SET (Attr "attendees") (Plus (Ref (Attr "attendees")) (Lit (Num 1)));
      SET (Sub "origin" o)
          (Plus (IfNotExists (Sub "origin" o) (Num 0)) (Lit (Num 1)));
      SET (Sub "prodid" p)
          (Plus (IfNotExists (Sub "prodid" p) (Num 0)) (Lit (Num 1)));
      SET (Sub "rsvp" s) (Plus (Ref (Sub "rsvp" s)) (Lit (Num 1))) ]
  = Some it' →
  adds_one s it it'.
Proof.
  intros Hrun. invert_update Hrun.
  all: injection Hrun as <-; unfold adds_one;
       do 3 eexists; repeat split; try eassumption; by lookups.
Qed.

Lemma shared_update_adds_one (it it' : gmap string value) p s :
  apply_update it
    ([ SET (Sub "rsvp" s) (Plus (Ref (Sub "rsvp" s)) (Lit (Num 1))) ] ++
     [ SET (Attr "attendees") (Plus (Ref (Attr "attendees")) (Lit (Num 1)));
       SET (Sub "origin" "shared")
           (Plus (IfNotExists (Sub "origin" "shared") (Num 0)) (Lit (Num 1)));
       SET (Sub "prodid" p)
           (Plus (IfNotExists (Sub "prodid" p) (Num 0)) (Lit (Num 1))) ])
  = Some it' →
  adds_one s it it'.
Proof.
  intros Hrun. invert_update Hrun.
  all: injection Hrun as <-; unfold adds_one;
       do 3 eexists; repeat split; try eassumption; by lookups.
Qed.

Lemma moved_update_moves_one (it it' : gmap string value) new previous :
  apply_update it
    ([ SET (Sub "rsvp" new) (Plus (Ref (Sub "rsvp" new)) (Lit (Num 1))) ] ++
     [ SET (Sub "rsvp" previous)
           (Minus (Ref (Sub "rsvp" previous)) (Lit (Num 1))) ])
  = Some it' →
  moves_one previous new it it'.
Proof.
  intros Hrun. unfold apply_update in Hrun. simpl in Hrun.
  destruct (decide (new = previous)) as [->|Hne].
  { by rewrite bool_decide_true in Hrun. }
  rewrite bool_decide_false in Hrun by done.
  invert_update Hrun.
  injection Hrun as <-. unfold moves_one.
  do 3 eexists. repeat split; try eassumption; try congruence.
  all: by lookups.
Qed.

Lemma invite_limit_update_frame (it it' : gmap string value) :
  apply_update it
    [ SET (Attr "invite_limit")
          (Minus (Ref (Attr "invite_limit")) (Lit (Num 1))) ]
  = Some it' →
  balanced it = true → balanced it' = true.
Proof.
  intros Hrun. invert_update Hrun. injection Hrun as <-.
  unfold balanced. by lookups.
Qed.

Lemma answered_update_frame (it it' : gmap string value) partstat prodid now :
  apply_update it
    [ SET (Attr "created") (Val (Lit (Num now)));
      SET (Attr "prodid") (Val (Lit (Str prodid)));
      SET (Attr "status") (Val (Lit (Str partstat)));
      SET (Attr "history")
          (ListAppend (Ref (Attr "history"))
             (Lit (List [List [Str partstat; Str (pretty now); Str prodid]]))) ]
  = Some it' →
  balanced it = true → balanced it' = true.
Proof.
  intros Hrun. invert_update Hrun. injection Hrun as <-.
  unfold balanced. by lookups.
Qed.

(** ** The two attendee handlers keep the balance *)

Lemma ensures_stable {A} (m : M A) :
  (∀ w a w', m w = (Returns a, w') → db w' = db w) → ensures m (λ _, True).
Proof.
  intros Hm w a w' Hrun. split; [|done].
  rewrite (Hm _ _ _ Hrun). apply preserved_refl.
Qed.

Lemma ensures_subscript d k : ensures (subscript d k) (λ _, True).
Proof.
  apply ensures_stable. intros w a w'. unfold subscript, raise.
  destruct (d !! k); [by intros [= <- <-] | by intros [=]].
Qed.

Lemma ensures_as_string v : ensures (as_string v) (λ _, True).
Proof.
  apply ensures_stable. intros w a w'. unfold as_string, raise.
  destruct v; first [by intros [= <- <-] | by intros [=]].
Qed.

Lemma ensures_format p v : ensures (format p v) (λ _, True).
Proof.
  apply ensures_stable. intros w a w'. unfold format, raise.
  destruct (py_str v); [by intros [= <- <-] | by intros [=]].
Qed.

Lemma ensures_warning msg : ensures (warning msg) (λ _, True).
Proof. by apply ensures_modify. Qed.

Lemma ensures_delete {A} (record : SqsRecord A) :
  ensures (delete_successfully_processed_sqs record) (λ _, True).
Proof.
  unfold delete_successfully_processed_sqs.
  destruct (valid_sqs_message_from record); [|by apply ensures_ret].
  destruct (receiptHandle record); [|apply ensures_raise].
  by apply ensures_modify.
Qed.

Lemma ensures_get_record pk sk :
  ensures (aws.get_dynamodb_record_for pk sk) (λ _, True).
Proof. apply ensures_read. Qed.

Lemma ensures_send_invite invite :
  ensures (send_event_invite.send_invite_to_attendee invite) (λ _, True).
Proof.
  eapply ensures_bind; [apply ensures_subscript|]. intros subject _.
  by apply ensures_modify.
Qed.

Lemma ensures_create_record_of_attendee invite :
  ensures (send_event_invite.create_record_of_attendee invite) (λ _, True).
Proof.
  apply ensures_try_reraise.
  eapply ensures_bind; [apply ensures_subscript|]. intros mailto _.
  eapply ensures_bind; [apply ensures_as_string|]. intros organizer _.
  eapply ensures_bind with
    (Q := λ x, ∃ it, x = Put it NotExists).
  { intros w a w' [= <- <-]. split; [apply preserved_refl | eauto]. }
  intros ? [it ->].
  apply ensures_transact. repeat constructor.
  - apply put_absent_keeps_balance.
  - apply update_keeps_balance, invite_limit_update_frame.
  - apply update_keeps_balance. intros ???. by eapply adds_one_balanced, invite_update_adds_one.
  - apply update_keeps_balance. intros ???. by eapply adds_one_balanced, invite_update_adds_one.
  - apply update_keeps_balance. intros ???. by eapply adds_one_balanced, invite_update_adds_one.
Qed.

Lemma ensures_invite_handler record :
  ensures (send_event_invite.process_request_from record) (λ _, True).
Proof.
  unfold send_event_invite.process_request_from,
    get_sqs_message_with_sns_notification_from.
  eapply (ensures_bind _ _ (λ _, True)); [by apply ensures_ret|].
  intros invite _.
  eapply (ensures_bind _ _ (λ _, True)).
  { eapply ensures_bind; [apply ensures_get_record|]. intros ? _.
    by apply ensures_ret. }
  intros fresh _.
  eapply ensures_bind; [|intros _ _; apply ensures_delete].
  destruct fresh.
  - eapply ensures_bind; [apply ensures_create_record_of_attendee|].
    intros _ _. apply ensures_send_invite.
  - case_bool_decide; [apply ensures_send_invite | by apply ensures_ret].
Qed.

Section rsvp_balance.
Import update_event_attendee_record.

Lemma ensures_get_organizer_for uid :
ensures (get_organizer_for uid) (λ _, True).
Proof.
eapply ensures_bind; [apply ensures_get_record|]. intros ? _.
apply ensures_subscript.
Qed.

Lemma ensures_statistics_update reply pk sk previous shared :
ensures (get_statistics_record_update_for reply pk sk previous shared)
        keeps_balance.
Proof.
unfold get_statistics_record_update_for. destruct shared; simpl.
- apply ensures_ret, update_keeps_balance.
  intros ?? H%shared_update_adds_one. by eapply adds_one_balanced.
- eapply ensures_bind; [apply ensures_as_string|]. intros p _.
  apply ensures_ret, update_keeps_balance.
  intros ?? H%moved_update_moves_one. by eapply moves_one_balanced.
Qed.

Lemma ensures_attendee_update reply :
ensures (get_attendee_update_record_for reply) keeps_balance.
Proof.
eapply ensures_bind; [apply ensures_read|]. intros now _.
apply ensures_ret, update_keeps_balance.
intros ??. apply answered_update_frame.
Qed.

Lemma ensures_shared_attendee reply :
ensures (get_shared_attendee_record_for reply) keeps_balance.
Proof.
eapply ensures_bind; [apply ensures_read|]. intros now _.
eapply ensures_bind; [apply ensures_get_organizer_for|]. intros m _.
eapply ensures_bind; [apply ensures_as_string|]. intros o _.
apply ensures_ret, put_absent_keeps_balance.
Qed.

Ltac ensures_step lem :=
eapply ensures_bind; [apply lem|]; intros ? ?.

Lemma ensures_submit_updated reply previous :
ensures (submit_updated_event_attend_record_for reply previous) (λ _, True).
Proof.
apply ensures_try_reraise.
ensures_step ensures_get_organizer_for.
ensures_step ensures_attendee_update.
ensures_step ensures_statistics_update.
ensures_step ensures_format.
ensures_step ensures_format.
ensures_step ensures_statistics_update.
ensures_step ensures_statistics_update.
apply ensures_transact. by repeat constructor.
Qed.

Lemma ensures_submit_shared reply :
ensures (submit_shared_event_attend_record_for reply) (λ _, True).
Proof.
apply ensures_try_reraise.
ensures_step ensures_get_organizer_for.
ensures_step ensures_shared_attendee.
ensures_step ensures_statistics_update.
ensures_step ensures_format.
ensures_step ensures_format.
ensures_step ensures_statistics_update.
ensures_step ensures_statistics_update.
apply ensures_transact. by repeat constructor.
Qed.

Lemma ensures_rsvp reply :
ensures (update_event_attendee_record_with reply) (λ _, True).
Proof.
unfold update_event_attendee_record_with, get_current_attendee_record_for.
ensures_step ensures_get_record.
destruct (truthy _).
- destruct (negb _).
  + ensures_step ensures_subscript. apply ensures_submit_updated.
  + apply ensures_warning.
- ensures_step ensures_warning. apply ensures_submit_shared.
Qed.

Lemma ensures_rsvp_handler record :
ensures (process_request_from record) (λ _, True).
Proof.
unfold process_request_from, get_sqs_message_with_sns_notification_from.
eapply (ensures_bind _ _ (λ _, True)); [by apply ensures_ret|].
intros reply _.
ensures_step ensures_rsvp. apply ensures_delete.
Qed.

End rsvp_balance.

(* ===================================================================== *)
(** * AttendeeLedger.record_rsvp *)

Section rsvp_claims.
Import update_event_attendee_record.

Lemma ready_inv (t : gmap key (gmap string value)) names k :
  ready t names k = true →
  ∃ it, t !! k = Some it ∧ forallb (has_bucket it "rsvp") names = true.
Proof. unfold ready. destruct (t !! k); [eauto | done]. Qed.


(** A reply that changes the status of a known attendee: the one
    transaction it commits. *)
Lemma rsvp_changed (w : World) (reply : EventReply) previous m
    (rec ev : gmap string value) h :
  db w !! attendee_key (uid reply) (attendee reply) = Some rec →
  rec !! "status" = Some (Str previous) →
  previous ≠ "" →
  previous ≠ partstat reply →
  rec !! "history" = Some (List h) →
  db w !! event_key (uid reply) = Some ev →
  ev !! "mailto" = Some (Str m) →
  forallb (ready (db w) [previous; partstat reply]) (scopes (uid reply) m)
  = true →
  update_event_attendee_record_with reply w
  = (Returns tt,
     with_db
       (<[system_statistics_key :=
            moved previous (partstat reply) (at_key (db w) system_statistics_key)]>
       (<[organizer_statistics_key m :=
            moved previous (partstat reply)
              (at_key (db w) (organizer_statistics_key m))]>
       (<[event_statistics_key (uid reply) :=
            moved previous (partstat reply)
              (at_key (db w) (event_statistics_key (uid reply)))]>
       (<[attendee_key (uid reply) (attendee reply) :=
            answered_attendee (partstat reply) (prodid reply) (utcnow w) rec]>
        (db w))))) w).
Proof.
  intros Hrec Hst Hne Hch Hh Hev Hm Hready. simpl in Hready.
  apply andb_prop in Hready as [(es & Hes & He)%ready_inv Hready].
  apply andb_prop in Hready as [(os & Hos & Ho)%ready_inv Hready].
  apply andb_prop in Hready as [(ss & Hss & Hs)%ready_inv _].
  simpl in He, Ho, Hs.
  repeat match goal with
         | H : _ && _ = true |- _ => apply andb_prop in H as [? ?]
         end.
  unfold at_key. rewrite Hes, Hos, Hss. simpl.
  by eapply rsvp_changed_run.
Qed.

(** C7 — Duplicate RSVP. A reply whose [partstat] is the status the
    attendee record already has takes the "RSVP already processed" branch:
    the handler returns without a write, so the table (the record's status
    and history, every counter of every scope) is what it was, and nothing
    is published. *)
Theorem duplicate_rsvp_writes_nothing (w : World) (reply : EventReply)
    (rec : gmap string value) :
  db w !! attendee_key (uid reply) (attendee reply) = Some rec →
  rec !! "status" = Some (Str (partstat reply)) →
  partstat reply ≠ "" →
  ∃ w', update_event_attendee_record_with reply w = (Returns tt, w')
        ∧ db w' = db w
        ∧ published w' = published w
        ∧ logged w' = (logged w ++ [Warning "RSVP already processed"])%list.
Proof.
  unfold attendee_key. intros Hrec Hst Hne. eexists.
  unfold update_event_attendee_record_with, get_current_attendee_record_for,
    aws.get_dynamodb_record_for, mbind, M_bind, read.
  rewrite Hrec. simpl. rewrite Hst. simpl.
  rewrite py_eq_refl, bool_decide_false by done. simpl.
  repeat split.
Qed.

Lemma duplicate_rsvp_writes_nothing_witness :
  ∃ w', update_event_attendee_record_with (Sample.reply "tentative")
          Sample.answered = (Returns tt, w')
        ∧ db w' = db Sample.answered
        ∧ published w' = published Sample.answered
        ∧ logged w' = (logged Sample.answered
                       ++ [Warning "RSVP already processed"])%list.
Proof.
  apply (duplicate_rsvp_writes_nothing Sample.answered
           (Sample.reply "tentative")
           (at_key (db Sample.answered) (attendee_key "E1" "b@y.com"))).
  - reflexivity.
  - reflexivity.
  - discriminate.
Defined.



(** C10 — What a status-changing reply does to the attendee record. Besides
    [status] and the appended [history] entry, the update sets [created] to
    the instant the reply is processed (the timestamp of the new history
    entry) and [prodid] to the replying client's; every other attribute
    stays. So [created] stops being the instant the record was created as
    soon as the first status change is processed at a later instant. *)
Theorem rsvp_overwrites_created_and_prodid (w : World) (reply : EventReply)
    (previous m : string) (rec ev : gmap string value) (h : list value) :
  db w !! attendee_key (uid reply) (attendee reply) = Some rec →
  rec !! "status" = Some (Str previous) →
  previous ≠ "" →
  previous ≠ partstat reply →
  rec !! "history" = Some (List h) →
  db w !! event_key (uid reply) = Some ev →
  ev !! "mailto" = Some (Str m) →
  forallb (ready (db w) [previous; partstat reply]) (scopes (uid reply) m)
  = true →
  ∃ w' after,
    update_event_attendee_record_with reply w = (Returns tt, w')
    ∧ db w' !! attendee_key (uid reply) (attendee reply) = Some after
    ∧ after !! "created" = Some (Num (utcnow w))
    ∧ after !! "prodid" = Some (Str (prodid reply))
    ∧ after !! "status" = Some (Str (partstat reply))
    ∧ after !! "history"
      = Some (List (h ++ [List [Str (partstat reply);
                                Str (pretty (utcnow w));
                                Str (prodid reply)]]))
    ∧ (∀ a, a ∉ ["created"; "prodid"; "status"; "history"] →
            after !! a = rec !! a)
    ∧ (∀ c, rec !! "created" = Some (Num c) → c ≠ utcnow w →
            after !! "created" ≠ rec !! "created").
Proof.
  intros Hrec Hst Hne Hch Hh Hev Hm Hready.
  eexists _, _. split; [by eapply rsvp_changed|].
  split.
  { simpl. rewrite !lookup_insert_ne by key_neq. apply lookup_insert_eq. }
  unfold answered_attendee, history_of. rewrite Hh.
  repeat split; try by lookups.
  - intros a Ha. rewrite !not_elem_of_cons in Ha.
    destruct Ha as (? & ? & ? & ? & _). by lookups.
  - intros c Hc Hnow. lookups. rewrite Hc. congruence.
Qed.

Lemma rsvp_overwrites_created_and_prodid_witness :
  ∃ w' after,
    update_event_attendee_record_with (Sample.reply "tentative")
      Sample.invited = (Returns tt, w')
    ∧ db w' !! attendee_key "E1" "b@y.com" = Some after
    ∧ after !! "created" = Some (Num 2000)
    ∧ after !! "prodid" = Some (Str "microsoft//outlook")
    ∧ after !! "status" = Some (Str "tentative")
    ∧ after !! "history"
      = Some (List ([List [Str "noaction"; Num 1000;
                           Str "-//31events//calendarsnack//en"]]
                    ++ [List [Str "tentative"; Str (pretty 2000);
                              Str "microsoft//outlook"]]))
    ∧ (∀ a, a ∉ ["created"; "prodid"; "status"; "history"] →
            after !! a
            = at_key (db Sample.invited) (attendee_key "E1" "b@y.com") !! a)
    ∧ (∀ c, at_key (db Sample.invited) (attendee_key "E1" "b@y.com")
              !! "created" = Some (Num c) → c ≠ 2000 →
            after !! "created"
            ≠ at_key (db Sample.invited) (attendee_key "E1" "b@y.com")
                !! "created").
Proof.
  apply (rsvp_overwrites_created_and_prodid Sample.invited
           (Sample.reply "tentative") "noaction" "a@x.com"
           (at_key (db Sample.invited) (attendee_key "E1" "b@y.com"))
           (at_key (db Sample.invited) (event_key "E1"))
           (history_of
              (at_key (db Sample.invited) (attendee_key "E1" "b@y.com")))).
  - reflexivity.
  - reflexivity.
  - discriminate.
  - discriminate.
  - reflexivity.
  - reflexivity.
  - reflexivity.
  - reflexivity.
Defined.
End rsvp_claims.

(* ===================================================================== *)
(** * AttendeeLedger.record_invite *)

Section invite_claims.
Import send_event_invite.

Lemma countable_inv (t : gmap key (gmap string value)) o p s k :
  countable t o p s k = true →
  ∃ it, t !! k = Some it
        ∧ is_count (it !! "attendees") = true
        ∧ open_bucket it "origin" o = true
        ∧ open_bucket it "prodid" p = true
        ∧ has_bucket it "rsvp" s = true.
Proof.
  unfold countable. destruct (t !! k) as [it|]; [|done].
  intros H. repeat (apply andb_prop in H as [H ?]). eauto 10.
Qed.

Lemma bucket_bump_eq a n d (it : gmap string value) m :
  it !! a = Some (Map m) →
  bucket (bump a n d it) a n
  = Some (Num (count (default (Num 0) (m !! n)) + d)).
Proof.
  intros H. unfold bucket, get_path. rewrite (bump_lookup_eq _ _ _ _ m H).
  apply lookup_insert_eq.
Qed.

Lemma bucket_bump_ne a n d (it : gmap string value) b k :
  a ≠ b → bucket (bump a n d it) b k = bucket it b k.
Proof. intros H. unfold bucket, get_path. by rewrite bump_lookup_ne. Qed.

Lemma counted_counts_one (it : gmap string value) o p s :
  is_count (it !! "attendees") = true →
  open_bucket it "origin" o = true →
  open_bucket it "prodid" p = true →
  has_bucket it "rsvp" s = true →
  counts_one o p s it (counted o p s it).
Proof.
  intros Ha Ho Hp Hs. split; [|split].
  - by apply invite_update_adds_one with o p, apply_update_invite.
  - unfold counted, open_bucket in *.
    destruct (it !! "origin") as [[| | | |om|]|] eqn:Eo; try done.
    rewrite !bucket_bump_ne by done.
    rewrite (bucket_bump_eq _ _ _ _ om).
    + unfold bucket, get_path. by rewrite Eo.
    + unfold one_more_attendee. by rewrite lookup_insert_ne.
  - unfold counted, open_bucket in *.
    destruct (it !! "prodid") as [[| | | |pm|]|] eqn:Ep; try done.
    rewrite !bucket_bump_ne by done.
    rewrite (bucket_bump_eq _ _ _ _ pm).
    + unfold bucket, get_path. by rewrite Ep.
    + rewrite bump_lookup_ne by done.
      unfold one_more_attendee. by rewrite lookup_insert_ne.
Qed.

Lemma apply_update_invite_limit (it : gmap string value) :
  is_count (it !! "invite_limit") = true →
  apply_update it
    [ SET (Attr "invite_limit")
          (Minus (Ref (Attr "invite_limit")) (Lit (Num 1))) ]
  = Some (one_invite_less it).
Proof.
  unfold is_count, apply_update, one_invite_less, py_get. simpl.
  by destruct (it !! "invite_limit") as [[]|].
Qed.

Lemma item_key_pk_sk (it : gmap string value) p s :
  item_key (<["pk" := Str p]> (<["sk" := Str s]> it)) = Some (p, s).
Proof.
  unfold item_key.
  by rewrite lookup_insert_eq, lookup_insert_ne, lookup_insert_eq.
Qed.

(** A first invite to an attendee: the one transaction it commits. *)
Lemma invite_recorded (w : World) (invite : Invite) (m : string)
    (ev : gmap string value) :
  event invite !! "mailto" = Some (Str m) →
  db w !! attendee_key (uid (request invite)) (email (request invite)) = None →
  db w !! event_key (uid (request invite)) = Some ev →
  is_count (ev !! "invite_limit") = true →
  forallb (countable (db w) (origin (request invite)) (prodid (request invite))
             (partstat (request invite)))
          (scopes (uid (request invite)) m) = true →
  ∃ rec,
    get_attendee_record_for (request invite) m w
    = (Returns (Put rec NotExists), w)
    ∧ create_record_of_attendee invite w
      = (Returns tt,
         with_db
           (<[system_statistics_key :=
                counted (origin (request invite)) (prodid (request invite))
                  (partstat (request invite))
                  (at_key (db w) system_statistics_key)]>
           (<[organizer_statistics_key m :=
                counted (origin (request invite)) (prodid (request invite))
                  (partstat (request invite))
                  (at_key (db w) (organizer_statistics_key m))]>
           (<[event_statistics_key (uid (request invite)) :=
                counted (origin (request invite)) (prodid (request invite))
                  (partstat (request invite))
                  (at_key (db w)
                     (event_statistics_key (uid (request invite))))]>
           (<[event_key (uid (request invite)) := one_invite_less ev]>
           (<[attendee_key (uid (request invite)) (email (request invite)) :=
                rec]>
            (db w)))))) w).
Proof.
  intros Hm Hfresh Hev Hlimit Hscopes. simpl in Hscopes.
  apply andb_prop in Hscopes as [(es & Hes & ? & ? & ? & ?)%countable_inv Hscopes].
  apply andb_prop in Hscopes as [(os & Hos & ? & ? & ? & ?)%countable_inv Hscopes].
  apply andb_prop in Hscopes as [(ss & Hss & ? & ? & ? & ?)%countable_inv _].
  unfold at_key. rewrite Hes, Hos, Hss. simpl.
  unfold attendee_key, event_key, event_statistics_key,
    organizer_statistics_key, system_statistics_key in *.
  eexists. split; [reflexivity|].
  unfold create_record_of_attendee, try_except, mbind, M_bind, subscript.
  rewrite Hm. simpl.
  unfold dynamodb.transact_write_items, DynamoDB.transact_write_items.
  simpl target_keys. rewrite item_key_pk_sk. cbv iota beta.
  rewrite bool_decide_true by keys_nodup.
  unfold apply_items.
  unfold apply_item at 1. rewrite item_key_pk_sk.
  rewrite Hfresh. simpl holds. cbv iota.
  unfold get_event_invite_limit_record_update_for,
    get_statistics_record_update_for.
  erewrite apply_item_update;
    [ | rewrite !lookup_insert_ne by key_neq; eassumption
      | by apply apply_update_invite_limit ].
  erewrite apply_item_update;
    [ | rewrite !lookup_insert_ne by key_neq; eassumption
      | by apply apply_update_invite ].
  erewrite apply_item_update;
    [ | rewrite !lookup_insert_ne by key_neq; eassumption
      | by apply apply_update_invite ].
  erewrite apply_item_update;
    [ | rewrite !lookup_insert_ne by key_neq; eassumption
      | by apply apply_update_invite ].
  reflexivity.
Qed.

(** An invite to an attendee who has a record: the "absent" condition
    cancels the transaction. *)
Lemma invite_refused (w : World) (invite : Invite) (m : string)
    (old : gmap string value) :
  event invite !! "mailto" = Some (Str m) →
  db w !! attendee_key (uid (request invite)) (email (request invite))
  = Some old →
  create_record_of_attendee invite w
  = (Raises (Exception "TransactionCanceledException"), w).
Proof.
  unfold attendee_key. intros Hm Hold.
  unfold create_record_of_attendee, try_except, mbind, M_bind, subscript.
  rewrite Hm. simpl.
  unfold dynamodb.transact_write_items, DynamoDB.transact_write_items.
  simpl target_keys. rewrite item_key_pk_sk. cbv iota beta.
  rewrite bool_decide_true by keys_nodup.
  unfold apply_items.
  unfold apply_item at 1. rewrite item_key_pk_sk.
  rewrite Hold. reflexivity.
Qed.

(** C5 (as the code has it) — A first invite to an attendee commits one
    transaction. It inserts the attendee record under the "absent"
    condition: the put carries the condition, and for an attendee who has a
    record already the transaction is cancelled and nothing is written. The
    record has the invite's [partstat] as [status] and one history entry
    [(partstat, now, "-//31events//calendarsnack//en")]: the product
    identifier in the record and in its history is the service's own, not
    the [prodid] of the request. The transaction takes exactly 1 from the
    event's [invite_limit]. In each of the three statistics scopes it adds 1
    to [attendees], to [origin[origin]] and [prodid[prodid]] (a missing
    bucket of these two starts from zero) and to the rsvp bucket of
    [partstat], which has to be there. Nothing else in the table changes. *)
Theorem record_invite_transaction (w : World) (invite : Invite) (m : string)
    (ev : gmap string value) (limit : Z) :
  event invite !! "mailto" = Some (Str m) →
  db w !! attendee_key (uid (request invite)) (email (request invite)) = None →
  db w !! event_key (uid (request invite)) = Some ev →
  ev !! "invite_limit" = Some (Num limit) →
  forallb (countable (db w) (origin (request invite)) (prodid (request invite))
             (partstat (request invite)))
          (scopes (uid (request invite)) m) = true →
  (∃ w' rec ev',
    create_record_of_attendee invite w = (Returns tt, w')
    ∧ get_attendee_record_for (request invite) m w
      = (Returns (Put rec NotExists), w)
    ∧ db w' !! attendee_key (uid (request invite)) (email (request invite))
      = Some rec
    ∧ rec !! "status" = Some (Str (partstat (request invite)))
    ∧ rec !! "history"
      = Some (List [List [Str (partstat (request invite));
                          Num (utcnow w);
                          Str "-//31events//calendarsnack//en"]])
    ∧ rec !! "prodid" = Some (Str "-//31events//calendarsnack//en")
    ∧ rec !! "origin" = Some (Str (origin (request invite)))
    ∧ db w' !! event_key (uid (request invite)) = Some ev'
    ∧ ev' !! "invite_limit" = Some (Num (limit - 1))
    ∧ (∀ a, a ≠ "invite_limit" → ev' !! a = ev !! a)
    ∧ (∀ k, k ∈ scopes (uid (request invite)) m →
            ∃ before after,
              db w !! k = Some before ∧ db w' !! k = Some after
              ∧ counts_one (origin (request invite))
                  (prodid (request invite)) (partstat (request invite))
                  before after)
    ∧ (∀ k, k ∉ attendee_key (uid (request invite)) (email (request invite))
                :: event_key (uid (request invite))
                :: scopes (uid (request invite)) m →
            db w' !! k = db w !! k))
  ∧ (∀ (w0 : World) (old : gmap string value),
       db w0 !! attendee_key (uid (request invite)) (email (request invite))
       = Some old →
       create_record_of_attendee invite w0
       = (Raises (Exception "TransactionCanceledException"), w0)).
Proof.
  intros Hm Hfresh Hev Hlimit Hscopes.
  split; [|intros w0 old Hold; by apply (invite_refused w0 invite m old)].
  destruct (invite_recorded w invite m ev) as (rec & Hput & Hrun); try done.
  { unfold is_count. by rewrite Hlimit. }
  pose proof Hput as Hrec. injection Hrec as Hrec.
  eexists _, rec, (one_invite_less ev). split; [exact Hrun|].
  split; [exact Hput|].
  simpl db. simpl in Hscopes.
  apply andb_prop in Hscopes as [(es & Hes & ? & ? & ? & ?)%countable_inv Hscopes].
  apply andb_prop in Hscopes as [(os & Hos & ? & ? & ? & ?)%countable_inv Hscopes].
  apply andb_prop in Hscopes as [(ss & Hss & ? & ? & ? & ?)%countable_inv _].
  unfold at_key. rewrite Hes, Hos, Hss. simpl.
  repeat split.
  - rewrite !lookup_insert_ne by key_neq. apply lookup_insert_eq.
  - rewrite <- Hrec. by lookups.
  - rewrite <- Hrec. by lookups.
  - rewrite <- Hrec. by lookups.
  - rewrite <- Hrec. by lookups.
  - rewrite !lookup_insert_ne by key_neq. apply lookup_insert_eq.
  - unfold one_invite_less, py_get. rewrite Hlimit. simpl. apply lookup_insert_eq.
  - intros a Ha. unfold one_invite_less. by rewrite lookup_insert_ne.
  - intros k Hk. unfold scopes in Hk.
    rewrite !elem_of_cons, elem_of_nil in Hk.
    destruct Hk as [->|[->|[->|[]]]].
    + exists es, (counted (origin (request invite)) (prodid (request invite))
                    (partstat (request invite)) es).
      repeat split; try done; try by apply counted_counts_one.
      rewrite !lookup_insert_ne by key_neq. apply lookup_insert_eq.
    + exists os, (counted (origin (request invite)) (prodid (request invite))
                    (partstat (request invite)) os).
      repeat split; try done; try by apply counted_counts_one.
      rewrite !lookup_insert_ne by key_neq. apply lookup_insert_eq.
    + exists ss, (counted (origin (request invite)) (prodid (request invite))
                    (partstat (request invite)) ss).
      repeat split; try done; try by apply counted_counts_one.
      apply lookup_insert_eq.
  - intros k Hk. unfold scopes in Hk. rewrite !not_elem_of_cons in Hk.
    destruct Hk as (? & ? & ? & ? & ? & _).
    by rewrite !lookup_insert_ne by done.
Qed.

Lemma record_invite_transaction_witness :
  (∃ w' rec ev',
    create_record_of_attendee Sample.bulk_invite Sample.world
    = (Returns tt, w')
    ∧ get_attendee_record_for (request Sample.bulk_invite) "a@x.com"
        Sample.world
      = (Returns (Put rec NotExists), Sample.world)
    ∧ db w' !! attendee_key "E1" "b@y.com" = Some rec
    ∧ rec !! "status" = Some (Str "noaction")
    ∧ rec !! "history"
      = Some (List [List [Str "noaction"; Num 1000;
                          Str "-//31events//calendarsnack//en"]])
    ∧ rec !! "prodid" = Some (Str "-//31events//calendarsnack//en")
    ∧ rec !! "origin" = Some (Str "bulk")
    ∧ db w' !! event_key "E1" = Some ev'
    ∧ ev' !! "invite_limit" = Some (Num (5 - 1))
    ∧ (∀ a, a ≠ "invite_limit" → ev' !! a = Sample.party !! a)
    ∧ (∀ k, k ∈ scopes "E1" "a@x.com" →
            ∃ before after,
              db Sample.world !! k = Some before ∧ db w' !! k = Some after
              ∧ counts_one "bulk" "31events//ses" "noaction" before after)
    ∧ (∀ k, k ∉ attendee_key "E1" "b@y.com" :: event_key "E1"
                :: scopes "E1" "a@x.com" →
            db w' !! k = db Sample.world !! k))
  ∧ (∀ (w0 : World) (old : gmap string value),
       db w0 !! attendee_key "E1" "b@y.com" = Some old →
       create_record_of_attendee Sample.bulk_invite w0
       = (Raises (Exception "TransactionCanceledException"), w0)).
Proof.
  apply (record_invite_transaction Sample.world Sample.bulk_invite "a@x.com"
           Sample.party 5).
  - reflexivity.
  - reflexivity.
  - reflexivity.
  - reflexivity.
  - reflexivity.
Defined.

(** Where the code leaves the claim. The history entry of a bulk invite
    names the service, while the request carries the mailer's product
    identifier. The status of the record, and the rsvp bucket counted, is
    the [partstat] the invite carries: an invite that says "accepted" is
    recorded and counted as accepted, with [rsvp[noaction]] left at zero.
    And the rsvp bucket is not initialised: on a statistics record without
    it the transaction is cancelled and nothing is written. *)
Lemma record_invite_transaction_counterexample :
  (fst (create_record_of_attendee Sample.bulk_invite Sample.world)
   = Returns tt
   ∧ prodid (request Sample.bulk_invite) = "31events//ses"
   ∧ at_key (db (snd (create_record_of_attendee Sample.bulk_invite
                        Sample.world)))
       (attendee_key "E1" "b@y.com") !! "history"
     = Some (List [List [Str "noaction"; Num 1000;
                         Str "-//31events//calendarsnack//en"]])
   ∧ at_key (db (snd (create_record_of_attendee Sample.bulk_invite
                        Sample.world)))
       (attendee_key "E1" "b@y.com") !! "history"
     ≠ Some (List [List [Str "noaction"; Num 1000;
                         Str (prodid (request Sample.bulk_invite))]]))
  ∧ (fst (create_record_of_attendee Sample.accepted_invite Sample.world)
     = Returns tt
     ∧ at_key (db (snd (create_record_of_attendee Sample.accepted_invite
                          Sample.world)))
         (attendee_key "E1" "b@y.com") !! "status"
       = Some (Str "accepted")
     ∧ bucket (at_key (db (snd (create_record_of_attendee
                                  Sample.accepted_invite Sample.world)))
                 (event_statistics_key "E1")) "rsvp" "accepted"
       = Some (Num 1)
     ∧ bucket (at_key (db (snd (create_record_of_attendee
                                  Sample.accepted_invite Sample.world)))
                 (event_statistics_key "E1")) "rsvp" "noaction"
       = Some (Num 0))
  ∧ (db Sample.uncounted !! attendee_key "E1" "b@y.com" = None
     ∧ bucket (at_key (db Sample.uncounted) (event_statistics_key "E1"))
         "rsvp" "noaction" = None
     ∧ create_record_of_attendee Sample.bulk_invite Sample.uncounted
       = (Raises (Exception "TransactionCanceledException"),
          Sample.uncounted)).
Proof.
  split; [|split].
  - split; [reflexivity|]. split; [reflexivity|]. split; [reflexivity|].
    apply (proj1 (bool_decide_eq_false _)). reflexivity.
  - split; [reflexivity|]. split; [reflexivity|]. split; reflexivity.
  - split; [reflexivity|]. split; reflexivity.
Qed.
End invite_claims.

(* ===================================================================== *)
(** * StatisticsAggregator: the balance invariant *)

Lemma update_at_key (t t' : gmap key (gmap string value)) k acts c before :
  t !! k = Some before →
  apply_item t (Update k acts c) = Some t' →
  ∃ after, t' !! k = Some after ∧ apply_update before acts = Some after.
Proof.
  intros Hk Hrun. simpl in Hrun. rewrite Hk in Hrun. simpl in Hrun.
  destruct (holds c _); [|done].
  destruct (apply_update before acts) as [after|]; [|done].
  injection Hrun as <-. exists after. by rewrite lookup_insert_eq.
Qed.

Lemma seed_balanced : rsvp_total create_new_event_record.rsvp_seed = 0.
Proof. reflexivity. Qed.

(** ** Committed transactions, read backwards *)

Lemma apply_item_other (t t' : gmap key (gmap string value)) x k :
  apply_item t x = Some t' → target_key x ≠ Some k → t' !! k = t !! k.
Proof.
  destruct x as [it c|k0 acts c]; simpl.
  - destruct (item_key it) as [k0|]; [|done].
    destruct (holds c _); [|done]. intros [= <-] Hne.
    rewrite lookup_insert_ne; [done|congruence].
  - destruct (holds c _); [|done].
    destruct (apply_update _ acts); [|done]. intros [= <-] Hne.
    rewrite lookup_insert_ne; [done|congruence].
Qed.

Lemma apply_items_other ws :
  ∀ (t t' : gmap key (gmap string value)) k,
    apply_items t ws = Some t' →
    Forall (λ x, target_key x ≠ Some k) ws →
    t' !! k = t !! k.
Proof.
  induction ws as [|x ws IH]; intros t t' k; simpl.
  - by intros [= <-].
  - destruct (apply_item t x) as [t1|] eqn:E; [|done].
    intros Hrest [Hx Hws]%Forall_cons.
    rewrite (IH _ _ _ Hrest Hws). by eapply apply_item_other.
Qed.

Lemma apply_items_app ws1 :
  ∀ ws2 (t t' : gmap key (gmap string value)),
    apply_items t (ws1 ++ ws2) = Some t' →
    ∃ t1, apply_items t ws1 = Some t1 ∧ apply_items t1 ws2 = Some t'.
Proof.
  induction ws1 as [|x ws1 IH]; simpl; intros ws2 t t' Hrun; [eauto|].
  destruct (apply_item t x); [eauto|done].
Qed.

(** The one update a committed transaction makes to the record at [k]. *)
Lemma apply_items_at (R : gmap string value → gmap string value → Prop)
    (k : key) (acts : list set_action) (c : condition)
    (pre post : list transact_item) (t t' : gmap key (gmap string value)) :
  (∀ it it', apply_update it acts = Some it' → R it it') →
  (∀ after, ¬ R (key_item k) after) →
  Forall (λ x, target_key x ≠ Some k) pre →
  Forall (λ x, target_key x ≠ Some k) post →
  apply_items t (pre ++ Update k acts c :: post) = Some t' →
  ∃ before after, t !! k = Some before ∧ t' !! k = Some after ∧ R before after.
Proof.
  intros HR Hbare Hpre Hpost Hrun.
  apply apply_items_app in Hrun as (t1 & H1 & Hrun).
  cbn [apply_items apply_item] in Hrun.
  destruct (holds c (t1 !! k)); [|done].
  destruct (apply_update _ acts) as [after|] eqn:Hu; [|done].
  pose proof (apply_items_other _ _ _ k Hrun Hpost) as Hk'.
  rewrite lookup_insert_eq in Hk'.
  rewrite (apply_items_other _ _ _ k H1 Hpre) in Hu.
  apply HR in Hu.
  destruct (t !! k) as [before|]; [|by apply Hbare in Hu].
  eauto.
Qed.

Lemma adds_one_bare status k after : ¬ adds_one status (key_item k) after.
Proof.
  intros (a & r & n & Ha & _). unfold key_item in Ha.
  by rewrite !lookup_insert_ne, lookup_empty in Ha.
Qed.

Lemma moves_one_bare previous new k after :
  ¬ moves_one previous new (key_item k) after.
Proof.
  intros (r & p & n & _ & Hr & _). unfold key_item in Hr.
  by rewrite !lookup_insert_ne, lookup_empty in Hr.
Qed.

Lemma transact_returned ws w w' :
  dynamodb.transact_write_items ws w = (Returns tt, w') →
  apply_items (db w) ws = Some (db w').
Proof.
  unfold dynamodb.transact_write_items, DynamoDB.transact_write_items.
  destruct (target_keys ws); [|done].
  destruct (bool_decide _); [|done].
  destruct (apply_items _ _); [|done]. by intros [= <-].
Qed.

Lemma try_reraise_returned {A} (m : M A) a w w' :
  try_except m reraise_client_error w = (Returns a, w') →
  m w = (Returns a, w').
Proof.
  unfold try_except. destruct (m w) as [[|e] w1]; [done|]. by destruct e.
Qed.

Lemma delete_returned {A} (record : SqsRecord A) w a w' :
  delete_successfully_processed_sqs record w = (Returns a, w') →
  db w' = db w.
Proof.
  unfold delete_successfully_processed_sqs.
  destruct (valid_sqs_message_from record); [|by intros [= <- <-]].
  destruct (receiptHandle record); [by intros [= <- <-]|done].
Qed.

Section invite_counts.
Import send_event_invite.

Lemma send_invite_returned invite w a w' :
  send_invite_to_attendee invite w = (Returns a, w') → db w' = db w.
Proof.
  unfold send_invite_to_attendee, subscript, mbind, M_bind.
  destruct (event invite !! "summary"); [by intros [= <- <-]|done].
Qed.

(** A recorded invite counts one attendee more in each scope. *)
Lemma invite_counted (invite : Invite) (m : string) (w w' : World) :
  event invite !! "mailto" = Some (Str m) →
  create_record_of_attendee invite w = (Returns tt, w') →
  in_scopes (uid (request invite)) m (adds_one (partstat (request invite)))
    (db w) (db w').
Proof.
  intros Hm Hrun%try_reraise_returned.
  unfold subscript, mbind, M_bind in Hrun. rewrite Hm in Hrun.
  cbn [mret M_ret as_string get_attendee_record_for read] in Hrun.
  unfold get_attendee_record_for, read, mbind, M_bind, mret, M_ret in Hrun.
  apply transact_returned in Hrun.
  unfold get_statistics_record_update_for,
    get_event_invite_limit_record_update_for in Hrun.
  intros k Hk. unfold scopes in Hk.
  rewrite !elem_of_cons, elem_of_nil in Hk.
  unfold event_statistics_key, organizer_statistics_key,
    system_statistics_key in Hk.
  destruct Hk as [->|[->|[->|[]]]].
  - eapply (apply_items_at _ _ _ _ [_; _] [_; _]); [..|exact Hrun].
    + intros it it'. apply invite_update_adds_one.
    + apply adds_one_bare.
    + repeat constructor; cbn [target_key]; rewrite ?item_key_pk_sk; key_neq.
    + repeat constructor; cbn [target_key]; key_neq.
  - eapply (apply_items_at _ _ _ _ [_; _; _] [_]); [..|exact Hrun].
    + intros it it'. apply invite_update_adds_one.
    + apply adds_one_bare.
    + repeat constructor; cbn [target_key]; rewrite ?item_key_pk_sk; key_neq.
    + repeat constructor; cbn [target_key]; key_neq.
  - eapply (apply_items_at _ _ _ _ [_; _; _; _] []); [..|exact Hrun].
    + intros it it'. apply invite_update_adds_one.
    + apply adds_one_bare.
    + repeat constructor; cbn [target_key]; rewrite ?item_key_pk_sk; key_neq.
    + constructor.
Qed.

(** The invite handler either skips the table or records the invite. *)
Lemma invite_handler_returned (record : SqsRecord Invite) (w w' : World) :
  process_request_from record w = (Returns tt, w') →
  if truthy (Map (at_key (db w)
                    (attendee_key (uid (request (message record)))
                                  (email (request (message record))))))
  then db w' = db w
  else ∃ w1, create_record_of_attendee (message record) w = (Returns tt, w1)
             ∧ db w' = db w1.
Proof.
  unfold process_request_from, get_sqs_message_with_sns_notification_from,
    attendee_has_not_been_sent, aws.get_dynamodb_record_for, at_key,
    attendee_key.
  unfold read, mbind, M_bind, mret, M_ret.
  destruct (truthy _); cbn [negb].
  - destruct (bool_decide _).
    + destruct (send_invite_to_attendee _ w) as [[[]|e] w1] eqn:Hs; [|done].
      intros ->%delete_returned. by eapply send_invite_returned.
    + by intros ->%delete_returned.
  - destruct (create_record_of_attendee _ w) as [[[]|e] w1] eqn:Hc; [|done].
    destruct (send_invite_to_attendee _ w1) as [[[]|e] w2] eqn:Hs; [|done].
    intros ->%delete_returned. exists w1. split; [done|].
    by eapply send_invite_returned.
Qed.

End invite_counts.

Section reply_counts.
Import update_event_attendee_record.

Lemma reply_handler_returned (record : SqsRecord EventReply) (w w' : World) :
  process_request_from record w = (Returns tt, w') →
  ∃ w1, update_event_attendee_record_with (message record) w = (Returns tt, w1)
        ∧ db w' = db w1.
Proof.
  unfold process_request_from, get_sqs_message_with_sns_notification_from.
  unfold mbind, M_bind, mret, M_ret.
  destruct (update_event_attendee_record_with _ w) as [[[]|e] w1] eqn:Hr;
    [|done].
  intros ->%delete_returned. eauto.
Qed.

(** A reply from somebody not invited counts one attendee more in each
    scope. *)
Lemma shared_reply_counted (reply : EventReply) (m : string) (w w' : World) :
  at_key (db w) (event_key (uid reply)) !! "mailto" = Some (Str m) →
  truthy (default (Bool false)
            (at_key (db w) (attendee_key (uid reply) (attendee reply))
               !! "status")) = false →
  update_event_attendee_record_with reply w = (Returns tt, w') →
  in_scopes (uid reply) m (adds_one (partstat reply)) (db w) (db w').
Proof.
  unfold at_key, event_key, attendee_key. intros Hm Habsent.
  unfold update_event_attendee_record_with, get_current_attendee_record_for,
    aws.get_dynamodb_record_for.
  unfold read, mbind, M_bind. rewrite Habsent.
  unfold warning, modify.
  intros Hrun%try_reraise_returned.
  unfold get_shared_attendee_record_for, get_organizer_for,
    aws.get_dynamodb_record_for, get_statistics_record_update_for,
    read, subscript, mbind, M_bind in Hrun.
  repeat (cbn [db with_logged as_string format py_str mret M_ret negb] in Hrun;
          rewrite Hm in Hrun).
  cbn [db with_logged as_string format py_str mret M_ret negb] in Hrun.
  apply transact_returned in Hrun. cbn [db with_logged] in Hrun.
  intros k Hk. unfold scopes in Hk.
  rewrite !elem_of_cons, elem_of_nil in Hk.
  unfold event_statistics_key, organizer_statistics_key,
    system_statistics_key in Hk.
  destruct Hk as [->|[->|[->|[]]]].
  - eapply (apply_items_at _ _ _ _ [_] [_; _]); [..|exact Hrun].
    + intros it it'. apply shared_update_adds_one.
    + apply adds_one_bare.
    + repeat constructor; cbn [target_key]; rewrite ?item_key_pk_sk; key_neq.
    + repeat constructor; cbn [target_key]; key_neq.
  - eapply (apply_items_at _ _ _ _ [_; _] [_]); [..|exact Hrun].
    + intros it it'. apply shared_update_adds_one.
    + apply adds_one_bare.
    + repeat constructor; cbn [target_key]; rewrite ?item_key_pk_sk; key_neq.
    + repeat constructor; cbn [target_key]; key_neq.
  - eapply (apply_items_at _ _ _ _ [_; _; _] []); [..|exact Hrun].
    + intros it it'. apply shared_update_adds_one.
    + apply adds_one_bare.
    + repeat constructor; cbn [target_key]; rewrite ?item_key_pk_sk; key_neq.
    + constructor.
Qed.

(** A reply that changes the status moves one unit in each scope. *)
Lemma changed_reply_counted (reply : EventReply) (m previous : string)
    (w w' : World) :
  at_key (db w) (event_key (uid reply)) !! "mailto" = Some (Str m) →
  at_key (db w) (attendee_key (uid reply) (attendee reply)) !! "status"
  = Some (Str previous) →
  previous ≠ "" →
  previous ≠ partstat reply →
  update_event_attendee_record_with reply w = (Returns tt, w') →
  in_scopes (uid reply) m (moves_one previous (partstat reply))
    (db w) (db w').
Proof.
  unfold at_key, event_key, attendee_key. intros Hm Hst Hne Hch.
  unfold update_event_attendee_record_with, get_current_attendee_record_for,
    aws.get_dynamodb_record_for.
  unfold read, mbind, M_bind, subscript. rewrite !Hst.
  cbn [default from_option id truthy]. rewrite py_eq_Str.
  rewrite (bool_decide_false (previous = "")) by done.
  rewrite bool_decide_false by congruence.
  cbn [negb mret M_ret].
  intros Hrun%try_reraise_returned.
  unfold get_attendee_update_record_for, get_organizer_for,
    aws.get_dynamodb_record_for, get_statistics_record_update_for,
    read, subscript, mbind, M_bind in Hrun.
  repeat (cbn [as_string format py_str mret M_ret negb] in Hrun;
          rewrite Hm in Hrun).
  cbn [as_string format py_str mret M_ret negb] in Hrun.
  apply transact_returned in Hrun.
  intros k Hk. unfold scopes in Hk.
  rewrite !elem_of_cons, elem_of_nil in Hk.
  unfold event_statistics_key, organizer_statistics_key,
    system_statistics_key in Hk.
  destruct Hk as [->|[->|[->|[]]]].
  - eapply (apply_items_at _ _ _ _ [_] [_; _]); [..|exact Hrun].
    + intros it it'. apply moved_update_moves_one.
    + apply moves_one_bare.
    + repeat constructor; cbn [target_key]; key_neq.
    + repeat constructor; cbn [target_key]; key_neq.
  - eapply (apply_items_at _ _ _ _ [_; _] [_]); [..|exact Hrun].
    + intros it it'. apply moved_update_moves_one.
    + apply moves_one_bare.
    + repeat constructor; cbn [target_key]; key_neq.
    + repeat constructor; cbn [target_key]; key_neq.
  - eapply (apply_items_at _ _ _ _ [_; _; _] []); [..|exact Hrun].
    + intros it it'. apply moved_update_moves_one.
    + apply moves_one_bare.
    + repeat constructor; cbn [target_key]; key_neq.
    + constructor.
Qed.

(** A reply that repeats the status leaves the table alone. *)
Lemma repeated_reply_skipped (reply : EventReply) (w w' : World) :
  at_key (db w) (attendee_key (uid reply) (attendee reply)) !! "status"
  = Some (Str (partstat reply)) →
  partstat reply ≠ "" →
  update_event_attendee_record_with reply w = (Returns tt, w') →
  db w' = db w.
Proof.
  unfold at_key, attendee_key. intros Hst Hne.
  unfold update_event_attendee_record_with, get_current_attendee_record_for,
    aws.get_dynamodb_record_for.
  unfold read, mbind, M_bind. rewrite !Hst.
  cbn [default from_option id truthy].
  rewrite py_eq_refl, bool_decide_false by done. cbn [negb].
  by intros [= <-].
Qed.

End reply_counts.

Section create_seeds.
Import create_new_event_record.

(** A committed create has put the seeded statistics record of the event. *)
Lemma create_seeded (event staged : gmap string value) (organizer : Organizer)
    (uid : string) (w w' : World) :
  staged !! "uid" = Some (Str uid) →
  create_new_event_record event staged organizer w = (Returns Committed, w') →
  ∃ seed, db w' !! event_statistics_key uid = Some seed
          ∧ seed !! "attendees" = Some (Num 0)
          ∧ seed !! "rsvp" = Some (Map rsvp_seed)
          ∧ balanced seed = true.
Proof.
  unfold event_statistics_key. intros Hu.
  unfold create_new_event_record, try_except.
  match goal with
  | |- context [match ?body w with _ => _ end] =>
      destruct (body w) as [[r|e] w1] eqn:Hb
  end.
  2:{ destruct e as [| | |code|]; try done.
      unfold mbind, M_bind, mret, M_ret, warning,
        send_notification_of_updated_event, aws.publish_sns_message, modify,
        raise.
      by destruct (bool_decide _). }
  intros [= -> ->].
  unfold get_original_event_record_from, get_statistics_record_for,
    get_organizer_event_update_query, subscript_S, subscript, format in Hb.
  unfold mbind, M_bind in Hb. rewrite Hu in Hb.
  destruct (staged !! "original_uid") as [[]|]; try done.
  destruct (staged !! "mailto") as [[]|]; try done.
  destruct (event !! "mailto") as [mailto|]; try done.
  cbn [mret M_ret] in Hb.
  destruct (py_str mailto) as [o|]; try done.
  cbn [mret M_ret] in Hb.
  destruct (dynamodb.transact_write_items _ w) as [[[]|] w2] eqn:Ht; try done.
  apply transact_returned in Ht.
  assert (db w' = db w2) as ->.
  { unfold send_notification_of_new_event, events_sent, mbind, M_bind in Hb.
    destruct (statistics organizer); try done.
    by injection Hb as <-. }
  apply (apply_items_app [_; _; _] [_]) in Ht as (t1 & H3 & H4).
  rewrite (apply_items_other _ _ _ ("event#" +:+ uid,
             "event_statistics#" +:+ uid) H4)
    by (repeat constructor; cbn [target_key]; key_neq).
  cbn [apply_items] in H3.
  destruct (apply_item (db w) _) as [ta|]; [|done].
  destruct (apply_item ta _) as [tb|]; [|done].
  unfold apply_item in H3. rewrite item_key_pk_sk in H3.
  cbn [holds] in H3. injection H3 as <-.
  rewrite lookup_insert_eq. eexists. split; [reflexivity|].
  split; [by lookups|]. split; [by lookups|].
  apply balanced_spec. eexists 0, rsvp_seed.
  split; [by lookups|]. split; [by lookups|]. apply seed_balanced.
Qed.

End create_seeds.

(** C1 — Statistics balance. Handling an invite or a reply without an
    exception keeps [sum(rsvp.values()) == attendees] on every record of
    the table on which it held, in all scopes, because of what a handled
    message does to the three statistics records of the attendee's event.
    An invite that is recorded adds one to [attendees] and to the rsvp
    bucket of its status in each of them; an invite to somebody who has a
    record writes nothing. A reply from somebody without a record adds one
    in the same way. A reply that changes the status moves one unit between
    two rsvp buckets and leaves [attendees]; one that repeats the status
    writes nothing. A committed create puts the per-event record with
    [attendees] 0 and the four rsvp buckets 0. The requests the handlers
    build do the same on any record the store accepts them for. *)
Theorem statistics_balance_is_invariant :
  (∀ w w', handled w w' → preserved (db w) (db w'))
  ∧ (∀ record m w w',
       send_event_invite.process_request_from record w = (Returns tt, w') →
       send_event_invite.event (message record) !! "mailto" = Some (Str m) →
       if truthy
            (Map (at_key (db w)
                    (attendee_key
                       (send_event_invite.uid
                          (send_event_invite.request (message record)))
                       (send_event_invite.email
                          (send_event_invite.request (message record))))))
       then db w' = db w
       else in_scopes
              (send_event_invite.uid
                 (send_event_invite.request (message record))) m
              (adds_one
                 (send_event_invite.partstat
                    (send_event_invite.request (message record))))
              (db w) (db w'))
  ∧ (∀ record m w w',
       update_event_attendee_record.process_request_from record w
       = (Returns tt, w') →
       at_key (db w)
         (event_key (update_event_attendee_record.uid (message record)))
         !! "mailto" = Some (Str m) →
       truthy
         (default (Bool false)
            (at_key (db w)
               (attendee_key
                  (update_event_attendee_record.uid (message record))
                  (update_event_attendee_record.attendee (message record)))
               !! "status")) = false →
       in_scopes (update_event_attendee_record.uid (message record)) m
         (adds_one (update_event_attendee_record.partstat (message record)))
         (db w) (db w'))
  ∧ (∀ record m previous w w',
       update_event_attendee_record.process_request_from record w
       = (Returns tt, w') →
       at_key (db w)
         (event_key (update_event_attendee_record.uid (message record)))
         !! "mailto" = Some (Str m) →
       at_key (db w)
         (attendee_key
            (update_event_attendee_record.uid (message record))
            (update_event_attendee_record.attendee (message record)))
         !! "status" = Some (Str previous) →
       previous ≠ "" →
       if bool_decide
            (previous
             = update_event_attendee_record.partstat (message record))
       then db w' = db w
       else in_scopes (update_event_attendee_record.uid (message record)) m
              (moves_one previous
                 (update_event_attendee_record.partstat (message record)))
              (db w) (db w'))
  ∧ (∀ event staged organizer uid w w',
       staged !! "uid" = Some (Str uid) →
       create_new_event_record.create_new_event_record event staged organizer
         w = (Returns create_new_event_record.Committed, w') →
       ∃ seed, db w' !! event_statistics_key uid = Some seed
               ∧ seed !! "attendees" = Some (Num 0)
               ∧ seed !! "rsvp" = Some (Map create_new_event_record.rsvp_seed)
               ∧ balanced seed = true)
  ∧ (∀ invite pk sk t t' before,
       t !! (pk, sk) = Some before →
       apply_item t
         (send_event_invite.get_statistics_record_update_for pk sk invite)
       = Some t' →
       ∃ after, t' !! (pk, sk) = Some after
                ∧ adds_one (send_event_invite.partstat invite) before after)
  ∧ (∀ reply pk sk previous shared w x w' t t' before,
       update_event_attendee_record.get_statistics_record_update_for
         reply pk sk previous shared w = (Returns x, w') →
       t !! (pk, sk) = Some before →
       apply_item t x = Some t' →
       ∃ after, t' !! (pk, sk) = Some after
                ∧ if shared
                  then adds_one (update_event_attendee_record.partstat reply)
                         before after
                  else ∃ p, previous = Str p
                            ∧ moves_one p
                                (update_event_attendee_record.partstat reply)
                                before after)
  ∧ (∀ staged w seed w',
       create_new_event_record.get_statistics_record_for staged w
       = (Returns seed, w') →
       seed !! "attendees" = Some (Num 0)
       ∧ seed !! "rsvp" = Some (Map create_new_event_record.rsvp_seed)
       ∧ balanced seed = true)
  ∧ (∀ status,
       create_new_event_record.rsvp_seed !! status
       = if bool_decide (status ∈ ["accepted"; "declined"; "noaction";
                                   "tentative"])
         then Some (Num 0) else None).
Proof.
  split; [|split; [|split; [|split; [|split; [|split; [|split; [|split]]]]]]].
  - intros w w' [[record Hrun]|[record Hrun]].
    + by destruct (ensures_invite_handler record _ _ _ Hrun).
    + by destruct (ensures_rsvp_handler record _ _ _ Hrun).
  - intros record m w w' Hrun Hm.
    apply invite_handler_returned in Hrun.
    destruct (truthy _); [done|].
    destruct Hrun as (w1 & Hrun & ->). by apply invite_counted.
  - intros record m w w' Hrun Hm Habsent.
    apply reply_handler_returned in Hrun as (w1 & Hrun & ->).
    by apply shared_reply_counted.
  - intros record m previous w w' Hrun Hm Hst Hne.
    apply reply_handler_returned in Hrun as (w1 & Hrun & ->).
    case_bool_decide as Hsame.
    + rewrite Hsame in Hst, Hne. by eapply repeated_reply_skipped.
    + by apply changed_reply_counted.
  - intros event staged organizer uid w w'. apply create_seeded.
  - intros invite pk sk t t' before Hk Hrun.
    destruct (update_at_key _ _ _ _ _ _ Hk Hrun) as (after & Hk' & Hu).
    exists after. split; [done|].
    exact (invite_update_adds_one _ _ _ _ _ Hu).
  - intros reply pk sk previous shared w x w' t t' before Hx Hk Hrun.
    unfold update_event_attendee_record.get_statistics_record_update_for in Hx.
    destruct shared; simpl in Hx.
    + injection Hx as <- <-.
      destruct (update_at_key _ _ _ _ _ _ Hk Hrun) as (after & Hk' & Hu).
      exists after. split; [done|].
      exact (shared_update_adds_one _ _ _ _ Hu).
    + destruct previous; try done. injection Hx as <- <-.
      destruct (update_at_key _ _ _ _ _ _ Hk Hrun) as (after & Hk' & Hu).
      exists after. split; [done|]. eexists. split; [done|].
      exact (moved_update_moves_one _ _ _ _ Hu).
  - intros staged w seed w' Hrun.
    unfold create_new_event_record.get_statistics_record_for,
      create_new_event_record.subscript_S, subscript, mbind, M_bind, raise
      in Hrun.
    destruct (staged !! "uid") as [[]|]; try done.
    destruct (staged !! "mailto") as [[]|]; try done.
    injection Hrun as <- <-. repeat split.
  - intros status. unfold create_new_event_record.rsvp_seed.
    case_bool_decide as Hs.
    + rewrite !elem_of_cons, elem_of_nil in Hs.
      destruct Hs as [->|[->|[->|[->|[]]]]]; reflexivity.
    + rewrite !not_elem_of_cons in Hs. destruct Hs as (?&?&?&?&_).
      by rewrite !lookup_insert_ne, lookup_empty by done.
Qed.

Lemma statistics_balance_is_invariant_witness :
  preserved (db Sample.invited) (db Sample.answered)
  ∧ in_scopes "E1" "a@x.com" (adds_one "noaction")
      (db Sample.world) (db Sample.invited)
  ∧ in_scopes "E1" "a@x.com" (moves_one "noaction" "tentative")
      (db Sample.invited) (db Sample.answered).
Proof.
  split; [|split].
  - apply (proj1 statistics_balance_is_invariant
             Sample.invited
             (with_deleted ["r-1"]
                (snd (update_event_attendee_record.update_event_attendee_record_with
                        (Sample.reply "tentative") Sample.invited)))).
    right. exists (mkRecord (Some "r-1") (Sample.reply "tentative")).
    reflexivity.
  - assert (send_event_invite.process_request_from
              (mkRecord (Some "r-0") Sample.bulk_invite) Sample.world
            = (Returns tt,
               snd (send_event_invite.process_request_from
                      (mkRecord (Some "r-0") Sample.bulk_invite)
                      Sample.world))) as Hrun by reflexivity.
    assert (send_event_invite.event Sample.bulk_invite !! "mailto"
            = Some (Str "a@x.com")) as Hm by reflexivity.
    exact (proj1 (proj2 statistics_balance_is_invariant) _ _ _ _ Hrun Hm).
  - assert (update_event_attendee_record.process_request_from
              (mkRecord (Some "r-1") (Sample.reply "tentative"))
              Sample.invited
            = (Returns tt,
               snd (update_event_attendee_record.process_request_from
                      (mkRecord (Some "r-1") (Sample.reply "tentative"))
                      Sample.invited))) as Hrun by reflexivity.
    assert (at_key (db Sample.invited) (event_key "E1") !! "mailto"
            = Some (Str "a@x.com")) as Hm by reflexivity.
    assert (at_key (db Sample.invited) (attendee_key "E1" "b@y.com")
              !! "status" = Some (Str "noaction")) as Hst by reflexivity.
    assert ("noaction" ≠ "") as Hne by discriminate.
    exact (proj1 (proj2 (proj2 (proj2 statistics_balance_is_invariant)))
             _ _ _ _ _ Hrun Hm Hst Hne).
Defined.

(* ===================================================================== *)
(** * EventStore.update *)

Section update_claims.
Import update_event.

Lemma event_updated_same (ev request : gmap string value) :
  (∀ f, f ∈ update_fields → py_get ev f = py_get request f) →
  event_updated ev request = false.
Proof.
  intros Hsame. unfold event_updated, update_fields in *. simpl.
  rewrite !Hsame, !py_eq_refl by (rewrite !elem_of_cons; tauto).
  reflexivity.
Qed.

(** C4 — No-op update. When the incoming request agrees with the stored
    event on each of the eight compared fields, the handler returns and the
    world is what it was: nothing is written (so [sequence], [dtstamp] and
    [last_modified] stay) and nothing is published. *)
Theorem update_with_same_fields_is_noop (w : World) (rh : option string)
    (request lk ev : gmap string value) (original_uid uid : string) :
  request !! "original_uid" = Some (Str original_uid) →
  db w !! original_event_key original_uid = Some lk →
  lk !! "uid" = Some (Str uid) →
  db w !! event_key uid = Some ev →
  (∀ f, f ∈ update_fields → py_get ev f = py_get request f) →
  process_request_from (mkRecord rh request) w = (Returns tt, w).
Proof.
  unfold original_event_key, event_key.
  intros Hou Hlk Hu Hev Hsame.
  unfold process_request_from, get_sqs_message_with_sns_notification_from,
    get_event_uid_from, get_event_from, aws.get_dynamodb_record_for,
    mbind, M_bind, mret, M_ret, read, subscript, format. simpl.
  rewrite Hou. simpl. rewrite Hlk. simpl. rewrite Hu. simpl.
  rewrite Hev. simpl. by rewrite event_updated_same.
Qed.

Lemma update_with_same_fields_is_noop_witness :
  process_request_from (mkRecord (Some "r-1") Sample.same_request)
    Sample.world
  = (Returns tt, Sample.world).
Proof.
  apply (update_with_same_fields_is_noop Sample.world (Some "r-1")
           Sample.same_request Sample.lookup Sample.party "X" "E1").
  - reflexivity.
  - reflexivity.
  - reflexivity.
  - reflexivity.
  - intros f Hf. unfold update_fields in Hf.
    rewrite !elem_of_cons, elem_of_nil in Hf.
    destruct Hf as [->|[->|[->|[->|[->|[->|[->|[->|[]]]]]]]]]; reflexivity.
Defined.

Lemma S_str_printable v w :
  printable v = true → S_str v w = (Returns (stored_text v), w).
Proof.
  unfold printable, S_str, stored_text. by destruct (py_str v).
Qed.

Lemma py_get_insert_eq (d : gmap string value) k v :
  py_get (<[k := v]> d) k = v.
Proof. unfold py_get. by rewrite lookup_insert_eq. Qed.

Lemma py_get_insert_ne (d : gmap string value) k k' v :
  k ≠ k' → py_get (<[k := v]> d) k' = py_get d k'.
Proof. intros. unfold py_get. by rewrite lookup_insert_ne. Qed.

Ltac py_gets :=
  repeat first [ rewrite py_get_insert_eq
               | rewrite py_get_insert_ne by done ].

(** The event record after [update_event] wrote it. *)
Lemma update_event_run (w : World) (request ev : gmap string value)
    (uid : string) (sequence dtend dtstart : Z) :
  db w !! event_key uid = Some ev →
  ev !! "uid" = Some (Str uid) →
  ev !! "sequence" = Some (Num sequence) →
  py_get request "dtend" = Num dtend →
  py_get request "dtstart" = Num dtstart →
  forallb (fun f => printable (py_get request f)) text_fields = true →
  ∃ local,
    update_event ev request w
    = (Returns local,
       with_db
         (<[event_key uid :=
              <["sequence" := Num (sequence + 1)]>
              (<["description_html" :=
                   stored_text (py_get request "description_html")]>
              (<["description" := stored_text (py_get request "description")]>
              (<["dtstart" := Num dtstart]>
              (<["dtend" := Num dtend]>
              (<["location_html" :=
                   stored_text (py_get request "location_html")]>
              (<["location" := stored_text (py_get request "location")]>
              (<["summary_html" :=
                   stored_text (py_get request "summary_html")]>
              (<["summary" := stored_text (py_get request "summary")]>
              (<["last_modified" := Num (utcnow w)]>
              (<["dtstamp" := Num (utcnow w)]> ev))))))))))]>
            (db w)) w).
Proof.
  unfold event_key. intros Hev Huid Hseq Hde Hds Htext. simpl in Htext.
  repeat (apply andb_prop in Htext as [? Htext]).
  eexists. unfold update_event, update_fields. simpl foldl.
  unfold mbind, M_bind, read, subscript.
  repeat (first [rewrite lookup_insert_eq | rewrite lookup_insert_ne by done]).
  rewrite Hseq. simpl.
  repeat (first [rewrite lookup_insert_eq | rewrite lookup_insert_ne by done]).
  rewrite Huid. simpl.
  py_gets.
  rewrite !S_str_printable by done.
  rewrite Hde, Hds. cbn [N_str mret M_ret].
  rewrite !S_str_printable by done. cbn [N_str mret M_ret].
  py_gets. cbn [N_str mret M_ret].
  unfold dynamodb.update_item, DynamoDB.update_item, apply_item.
  cbn [holds]. rewrite Hev. reflexivity.
Qed.

Lemma stored_text_Str s : stored_text (Str s) = Str s.
Proof. reflexivity. Qed.

(** C9 — Update. When the request differs from the stored event on one of
    the eight compared fields, the handler writes the event record once
    ([update_item], a single atomic update): every compared field takes the
    incoming value (a text field the [str] of it, which is the value itself
    when it is a string), [dtstamp] and [last_modified] become the current
    instant, [sequence] becomes the stored sequence plus 1 (so it does not
    decrease), and no other attribute changes. One "event updated"
    notification is published and the message is acknowledged. The request
    is well typed: its two instants are integers. *)
Theorem update_with_changed_fields (w : World) (h : string)
    (request lk ev : gmap string value) (original_uid uid : string)
    (sequence dtend dtstart : Z) :
  h ≠ "" →
  request !! "original_uid" = Some (Str original_uid) →
  db w !! original_event_key original_uid = Some lk →
  lk !! "uid" = Some (Str uid) →
  db w !! event_key uid = Some ev →
  ev !! "uid" = Some (Str uid) →
  ev !! "sequence" = Some (Num sequence) →
  py_get request "dtend" = Num dtend →
  py_get request "dtstart" = Num dtstart →
  forallb (fun f => printable (py_get request f)) text_fields = true →
  event_updated ev request = true →
  ∃ w' ev' payload,
    process_request_from (mkRecord (Some h) request) w = (Returns tt, w')
    ∧ db w' = <[event_key uid := ev']> (db w)
    ∧ (∀ f, f ∈ text_fields →
            ev' !! f = Some (stored_text (py_get request f)))
    ∧ (∀ f s, f ∈ text_fields → py_get request f = Str s →
              ev' !! f = Some (Str s))
    ∧ ev' !! "dtend" = Some (Num dtend)
    ∧ ev' !! "dtstart" = Some (Num dtstart)
    ∧ ev' !! "dtstamp" = Some (Num (utcnow w))
    ∧ ev' !! "last_modified" = Some (Num (utcnow w))
    ∧ ev' !! "sequence" = Some (Num (sequence + 1))
    ∧ (sequence ≤ sequence + 1)%Z
    ∧ (∀ a, a ∉ (update_fields
                   ++ ["dtstamp"; "last_modified"; "sequence"])%list →
            ev' !! a = ev !! a)
    ∧ published w' = (published w ++ [("EVENT_UPDATED", payload)])%list
    ∧ deleted w' = (deleted w ++ [h])%list.
Proof.
  intros Hh Hou Hlk Hu Hev Huid Hseq Hde Hds Htext Hchanged.
  destruct (update_event_run w request ev uid sequence dtend dtstart)
    as (local & Hrun); try done.
  eexists _, _, _. split.
  { unfold original_event_key, event_key in *.
    unfold process_request_from, get_sqs_message_with_sns_notification_from,
      get_event_uid_from, get_event_from, aws.get_dynamodb_record_for.
    unfold mbind, M_bind, mret, M_ret, read, subscript, format. simpl.
    rewrite Hou. simpl. rewrite Hlk. simpl. rewrite Hu. simpl.
    rewrite Hev. simpl. rewrite Hchanged.
    unfold mbind, M_bind in Hrun. rewrite Hrun.
    unfold send_notification_of_updated, aws.publish_sns_message, modify,
      delete_successfully_processed_sqs, valid_sqs_message_from,
      clean_up_successful_task, aws.delete_sqs_message, modify. simpl.
    rewrite bool_decide_false by done. simpl. reflexivity. }
  simpl. split; [reflexivity|].
  assert (Hfields : ∀ f, f ∈ text_fields →
    <["sequence" := Num (sequence + 1)]>
    (<["description_html" := stored_text (py_get request "description_html")]>
    (<["description" := stored_text (py_get request "description")]>
    (<["dtstart" := Num dtstart]>
    (<["dtend" := Num dtend]>
    (<["location_html" := stored_text (py_get request "location_html")]>
    (<["location" := stored_text (py_get request "location")]>
    (<["summary_html" := stored_text (py_get request "summary_html")]>
    (<["summary" := stored_text (py_get request "summary")]>
    (<["last_modified" := Num (utcnow w)]>
    (<["dtstamp" := Num (utcnow w)]> ev)))))))))) !! f
    = Some (stored_text (py_get request f))).
  { intros f Hf. unfold text_fields in Hf.
    rewrite !elem_of_cons, elem_of_nil in Hf.
    destruct Hf as [->|[->|[->|[->|[->|[->|[]]]]]]]; by lookups. }
  split; [exact Hfields|].
  split; [intros f s Hf Hs; by rewrite (Hfields f Hf), Hs|].
  do 5 (split; [by lookups|]).
  split; [lia|].
  split; [|split; reflexivity].
  intros a Ha. simpl in Ha. rewrite !not_elem_of_cons in Ha.
  destruct Ha as (?&?&?&?&?&?&?&?&?&?&?&_). by lookups.
Qed.

Lemma update_with_changed_fields_witness :
  ∃ w' ev' payload,
    process_request_from (mkRecord (Some "r-2") Sample.moved_request)
      Sample.world = (Returns tt, w')
    ∧ db w' = <[event_key "E1" := ev']> (db Sample.world)
    ∧ (∀ f, f ∈ text_fields →
            ev' !! f = Some (stored_text (py_get Sample.moved_request f)))
    ∧ (∀ f s, f ∈ text_fields → py_get Sample.moved_request f = Str s →
              ev' !! f = Some (Str s))
    ∧ ev' !! "dtend" = Some (Num 1700003600)
    ∧ ev' !! "dtstart" = Some (Num 1700000000)
    ∧ ev' !! "dtstamp" = Some (Num (utcnow Sample.world))
    ∧ ev' !! "last_modified" = Some (Num (utcnow Sample.world))
    ∧ ev' !! "sequence" = Some (Num (0 + 1))
    ∧ (0 ≤ 0 + 1)%Z
    ∧ (∀ a, a ∉ (update_fields
                   ++ ["dtstamp"; "last_modified"; "sequence"])%list →
            ev' !! a = Sample.party !! a)
    ∧ published w'
      = (published Sample.world ++ [("EVENT_UPDATED", payload)])%list
    ∧ deleted w' = (deleted Sample.world ++ ["r-2"])%list.
Proof.
  apply (update_with_changed_fields Sample.world "r-2" Sample.moved_request
           Sample.lookup Sample.party "X" "E1" 0 1700003600 1700000000).
  - discriminate.
  - reflexivity.
  - reflexivity.
  - reflexivity.
  - reflexivity.
  - reflexivity.
  - reflexivity.
  - reflexivity.
  - reflexivity.
  - reflexivity.
  - reflexivity.
Defined.

(** C3 at the update handler: a request that repeats the stored event is
    processed without an exception and the batch reports "Complete", but the
    message is not deleted from the queue: [process_request_from] calls
    [delete_successfully_processed_sqs] only inside the "updated" branch.
    The cancel handler, on an event that is already cancelled, deletes the
    message. *)
Theorem noop_update_is_not_acknowledged :
  process_request_from (mkRecord (Some "r-1") Sample.same_request)
    Sample.world
  = (Returns tt, Sample.world)
  ∧ lambda_handler process_request_from
      [mkRecord (Some "r-1") Sample.same_request] Sample.world
    = (Returns "Complete", Sample.world)
  ∧ deleted Sample.world = []
  ∧ cancel_event_2.process_request_from
      (mkRecord (Some "r-1") Sample.same_request) Sample.cancelled
    = (Returns tt, with_deleted ["r-0"; "r-1"] Sample.cancelled).
Proof. repeat split. Qed.
End update_claims.

(* ===================================================================== *)
(** * EventStore.cancel *)

Section cancel_claims.
Import cancel_event_2.

(** A cancel request for an event that is already cancelled. *)
Lemma cancel_again (w : World) (h : string)
    (request lk ev : gmap string value) (original_uid uid : string) :
  h ≠ "" →
  request !! "original_uid" = Some (Str original_uid) →
  db w !! original_event_key original_uid = Some lk →
  lk !! "uid" = Some (Str uid) →
  db w !! event_key uid = Some ev →
  ev !! "status" = Some (Str "cancelled") →
  process_request_from (mkRecord (Some h) request) w
  = (Returns tt, with_deleted (deleted w ++ [h]) w).
Proof.
  unfold original_event_key, event_key.
  intros Hh Hou Hlk Hu Hev Hst.
  unfold process_request_from, get_sqs_message_with_sns_notification_from,
    get_event_uid_from, get_event_from, aws.get_dynamodb_record_for,
    event_is_not_cancelled.
  unfold mbind, M_bind, mret, M_ret, read, subscript, format. simpl.
  rewrite Hou. simpl. rewrite Hlk. simpl. rewrite Hu. simpl.
  rewrite Hev. simpl. rewrite Hst. simpl.
  unfold delete_successfully_processed_sqs, valid_sqs_message_from,
    clean_up_successful_task, aws.delete_sqs_message, modify. simpl.
  by rewrite bool_decide_false.
Qed.

(** The first cancel of an event. *)
Lemma cancel_first (w : World) (h : string)
    (request lk ev : gmap string value) (original_uid uid : string)
    (status : value) (sequence : Z) :
  h ≠ "" →
  request !! "original_uid" = Some (Str original_uid) →
  db w !! original_event_key original_uid = Some lk →
  lk !! "uid" = Some (Str uid) →
  db w !! event_key uid = Some ev →
  ev !! "uid" = Some (Str uid) →
  ev !! "status" = Some status →
  py_eq status (Str "cancelled") = false →
  ev !! "sequence" = Some (Num sequence) →
  ∃ payload,
    process_request_from (mkRecord (Some h) request) w
    = (Returns tt,
       with_deleted (deleted w ++ [h])
         (with_published (published w ++ [("EVENT_CANCELLED", payload)])
            (with_db
               (<[event_key uid :=
                    <["sequence" := Num (sequence + 1)]>
                    (<["status" := Str "cancelled"]>
                    (<["method" := Str "cancel"]>
                    (<["last_modified" := Num (utcnow w)]>
                    (<["dtstamp" := Num (utcnow w)]> ev))))]>
                  (db w)) w))).
Proof.
  unfold original_event_key, event_key.
  intros Hh Hou Hlk Hu Hev Huid Hst Hnot Hseq.
  eexists.
  unfold process_request_from, get_sqs_message_with_sns_notification_from,
    get_event_uid_from, get_event_from, aws.get_dynamodb_record_for,
    event_is_not_cancelled.
  unfold mbind, M_bind, mret, M_ret, read, subscript, format. simpl.
  rewrite Hou. simpl. rewrite Hlk. simpl. rewrite Hu. simpl.
  rewrite Hev. simpl. rewrite Hst. simpl. rewrite Hnot. simpl.
  unfold cancel_event, mbind, M_bind, read, subscript.
  lookups. rewrite Hseq. simpl. lookups. rewrite Huid. simpl.
  unfold py_get. lookups. simpl.
  unfold dynamodb.update_item, DynamoDB.update_item, apply_item.
  cbn [holds]. rewrite Hev.
  unfold send_notification_of_cancelled, aws.publish_sns_message, modify,
    delete_successfully_processed_sqs, valid_sqs_message_from,
    clean_up_successful_task, aws.delete_sqs_message, modify. simpl.
  rewrite bool_decide_false by done. simpl. reflexivity.
Qed.

(** C8 — Idempotent cancel. The first cancel of an event that is not
    cancelled writes the record once: [status] cancelled, [method] cancel,
    [dtstamp] and [last_modified] the current instant, [sequence] one more,
    and publishes one "event cancelled" notification. Any later cancel for
    the same original identifier, at any later instant, finds
    [status = cancelled]: it writes nothing, so the record is exactly what
    the first call left, publishes nothing, and only acknowledges its
    message. *)
Theorem cancel_is_idempotent (w : World) (h : string)
    (request lk ev : gmap string value) (original_uid uid : string)
    (status : value) (sequence : Z) :
  h ≠ "" →
  request !! "original_uid" = Some (Str original_uid) →
  db w !! original_event_key original_uid = Some lk →
  lk !! "uid" = Some (Str uid) →
  db w !! event_key uid = Some ev →
  ev !! "uid" = Some (Str uid) →
  ev !! "status" = Some status →
  py_eq status (Str "cancelled") = false →
  ev !! "sequence" = Some (Num sequence) →
  ∃ w1 ev1 payload,
    process_request_from (mkRecord (Some h) request) w = (Returns tt, w1)
    ∧ db w1 = <[event_key uid := ev1]> (db w)
    ∧ ev1 !! "status" = Some (Str "cancelled")
    ∧ ev1 !! "method" = Some (Str "cancel")
    ∧ ev1 !! "sequence" = Some (Num (sequence + 1))
    ∧ ev1 !! "dtstamp" = Some (Num (utcnow w))
    ∧ ev1 !! "last_modified" = Some (Num (utcnow w))
    ∧ (∀ a, a ∉ ["status"; "method"; "sequence"; "dtstamp"; "last_modified"] →
            ev1 !! a = ev !! a)
    ∧ published w1 = (published w ++ [("EVENT_CANCELLED", payload)])%list
    ∧ ∀ (later : Z) (h2 : string) (request2 : gmap string value),
        h2 ≠ "" →
        request2 !! "original_uid" = Some (Str original_uid) →
        ∃ w2,
          process_request_from (mkRecord (Some h2) request2)
            (with_utcnow later w1) = (Returns tt, w2)
          ∧ db w2 = db w1
          ∧ db w2 !! event_key uid = Some ev1
          ∧ published w2 = published w1
          ∧ deleted w2 = (deleted w1 ++ [h2])%list.
Proof.
  intros Hh Hou Hlk Hu Hev Huid Hst Hnot Hseq.
  destruct (cancel_first w h request lk ev original_uid uid status sequence)
    as (payload & Hfirst); try done.
  eexists _, _, payload. split; [exact Hfirst|]. simpl.
  split; [reflexivity|].
  do 5 (split; [by lookups|]).
  split.
  { intros a Ha. rewrite !not_elem_of_cons in Ha.
    destruct Ha as (?&?&?&?&?&_). by lookups. }
  split; [reflexivity|].
  intros later h2 request2 Hh2 Hou2.
  eexists. split.
  { eapply (cancel_again _ h2 request2 lk); try done.
    - simpl. rewrite lookup_insert_ne by key_neq. exact Hlk.
    - simpl. apply lookup_insert_eq.
    - by lookups. }
  simpl. repeat split. apply lookup_insert_eq.
Qed.

Lemma cancel_is_idempotent_witness :
  ∃ w1 ev1 payload,
    process_request_from (mkRecord (Some "r-0") Sample.same_request)
      Sample.world = (Returns tt, w1)
    ∧ db w1 = <[event_key "E1" := ev1]> (db Sample.world)
    ∧ ev1 !! "status" = Some (Str "cancelled")
    ∧ ev1 !! "method" = Some (Str "cancel")
    ∧ ev1 !! "sequence" = Some (Num (0 + 1))
    ∧ ev1 !! "dtstamp" = Some (Num (utcnow Sample.world))
    ∧ ev1 !! "last_modified" = Some (Num (utcnow Sample.world))
    ∧ (∀ a, a ∉ ["status"; "method"; "sequence"; "dtstamp"; "last_modified"] →
            ev1 !! a = Sample.party !! a)
    ∧ published w1
      = (published Sample.world ++ [("EVENT_CANCELLED", payload)])%list
    ∧ ∀ (later : Z) (h2 : string) (request2 : gmap string value),
        h2 ≠ "" →
        request2 !! "original_uid" = Some (Str "X") →
        ∃ w2,
          process_request_from (mkRecord (Some h2) request2)
            (with_utcnow later w1) = (Returns tt, w2)
          ∧ db w2 = db w1
          ∧ db w2 !! event_key "E1" = Some ev1
          ∧ published w2 = published w1
          ∧ deleted w2 = (deleted w1 ++ [h2])%list.
Proof.
  apply (cancel_is_idempotent Sample.world "r-0" Sample.same_request
           Sample.lookup Sample.party "X" "E1" (Str "confirmed") 0).
  - discriminate.
  - reflexivity.
  - reflexivity.
  - reflexivity.
  - reflexivity.
  - reflexivity.
  - reflexivity.
  - reflexivity.
  - reflexivity.
Defined.
End cancel_claims.

(* ===================================================================== *)
(** * EventStore.create *)

Section create_claims.
Import create_new_event_record.

(** A create request whose original identifier is already in the table. *)
Lemma create_again (w : World) (event staged : gmap string value)
    (organizer : Organizer) (original_uid uid mailto : string)
    (lk : gmap string value) :
  staged !! "original_uid" = Some (Str original_uid) →
  staged !! "uid" = Some (Str uid) →
  staged !! "mailto" = Some (Str mailto) →
  staged !! "pk" = Some (Str ("event#" +:+ uid)) →
  staged !! "sk" = Some (Str ("event#" +:+ uid)) →
  event !! "mailto" = Some (Str mailto) →
  db w !! original_event_key original_uid = Some lk →
  create_new_event_record event staged organizer w
  = (Returns (ErrorResponse "TransactionCanceledException"),
     with_published (published w ++ [("EVENT_UPDATED", Map event)])
       (with_logged (logged w ++ [Warning "Event record already exists"]) w)).
Proof.
  unfold original_event_key.
  intros Hou Hu Hm Hpk Hsk Hem Hlk.
  unfold create_new_event_record, try_except, get_original_event_record_from,
    get_statistics_record_for, get_organizer_event_update_query,
    subscript_S, subscript, format.
  unfold mbind, M_bind, mret, M_ret. rewrite Hou, Hu, Hm, Hem. simpl.
  unfold dynamodb.transact_write_items, DynamoDB.transact_write_items.
  simpl target_keys. rewrite !item_key_pk_sk.
  unfold item_key. rewrite Hpk, Hsk. cbv iota beta.
  rewrite bool_decide_true by keys_nodup.
  unfold apply_items, apply_item. rewrite item_key_pk_sk, Hlk. simpl.
  reflexivity.
Qed.

(** The first create for an original identifier. *)
Lemma create_first (w : World) (event staged : gmap string value)
    (organizer : Organizer) (original_uid uid mailto : string)
    (os sm : gmap string value) :
  staged !! "original_uid" = Some (Str original_uid) →
  staged !! "uid" = Some (Str uid) →
  staged !! "mailto" = Some (Str mailto) →
  staged !! "pk" = Some (Str ("event#" +:+ uid)) →
  staged !! "sk" = Some (Str ("event#" +:+ uid)) →
  event !! "mailto" = Some (Str mailto) →
  statistics organizer = Map sm →
  db w !! original_event_key original_uid = None →
  db w !! organizer_statistics_key mailto = Some os →
  absent_or_count (os !! "events") = true →
  ∃ lk seed payload,
    get_original_event_record_from staged w = (Returns lk, w)
    ∧ get_statistics_record_for staged w = (Returns seed, w)
    ∧ create_new_event_record event staged organizer w
      = (Returns Committed,
         with_published (published w ++ [("NEW_EVENT_CREATED", payload)])
           (with_db
              (<[organizer_statistics_key mailto :=
                   <["events" :=
                       Num (count (default (Num 0) (os !! "events")) + 1)]> os]>
              (<[event_statistics_key uid := seed]>
              (<[event_key uid := staged]>
              (<[original_event_key original_uid := lk]> (db w))))) w)).
Proof.
  unfold original_event_key, organizer_statistics_key, event_statistics_key,
    event_key.
  intros Hou Hu Hm Hpk Hsk Hem Hsm Hfresh Hos Hevents.
  unfold get_original_event_record_from, get_statistics_record_for,
    subscript_S, subscript.
  unfold mbind, M_bind, mret, M_ret. rewrite Hou, Hu, Hm.
  eexists _, _, _. split; [reflexivity|]. split; [reflexivity|].
  unfold create_new_event_record, try_except, get_original_event_record_from,
    get_statistics_record_for, get_organizer_event_update_query,
    subscript_S, subscript, format.
  unfold mbind, M_bind, mret, M_ret. rewrite Hou, Hu, Hm, Hem. simpl.
  unfold dynamodb.transact_write_items, DynamoDB.transact_write_items.
  simpl target_keys. rewrite !item_key_pk_sk.
  unfold item_key. rewrite Hpk, Hsk. cbv iota beta.
  rewrite bool_decide_true by keys_nodup.
  unfold apply_items, apply_item. rewrite !item_key_pk_sk.
  unfold item_key. rewrite Hpk, Hsk, Hfresh. simpl holds. cbv iota beta.
  rewrite !lookup_insert_ne by key_neq. rewrite Hos. simpl default.
  unfold apply_update. simpl.
  unfold absent_or_count in Hevents.
  unfold send_notification_of_new_event, events_sent, mbind, M_bind.
  rewrite Hsm.
  destruct (os !! "events") as [[]|]; try done; simpl; reflexivity.
Qed.

(** C2 — Idempotent create. The first create for an original identifier
    commits the four-item transaction: lookup, event, the seeded per-event
    statistics, and the organizer's [events] counter one more. Any later
    create with the same original identifier finds the lookup: its
    transaction is cancelled by the "absent" condition, the table is exactly
    what the first call left (one lookup, one event, counters counted
    once), and the call does not raise: it logs "Event record already
    exists", hands the request on as an "event updated" notification, and
    returns the error response. *)
Theorem create_is_idempotent (w : World) (event staged : gmap string value)
    (organizer : Organizer) (original_uid uid mailto : string)
    (os sm : gmap string value) :
  staged !! "original_uid" = Some (Str original_uid) →
  staged !! "uid" = Some (Str uid) →
  staged !! "mailto" = Some (Str mailto) →
  staged !! "pk" = Some (Str ("event#" +:+ uid)) →
  staged !! "sk" = Some (Str ("event#" +:+ uid)) →
  event !! "mailto" = Some (Str mailto) →
  statistics organizer = Map sm →
  db w !! original_event_key original_uid = None →
  db w !! organizer_statistics_key mailto = Some os →
  absent_or_count (os !! "events") = true →
  ∃ w1 lk seed payload,
    create_new_event_record event staged organizer w = (Returns Committed, w1)
    ∧ db w1
      = <[organizer_statistics_key mailto :=
            <["events" :=
                Num (count (default (Num 0) (os !! "events")) + 1)]> os]>
        (<[event_statistics_key uid := seed]>
        (<[event_key uid := staged]>
        (<[original_event_key original_uid := lk]> (db w))))
    ∧ lk !! "uid" = Some (Str uid)
    ∧ seed !! "attendees" = Some (Num 0)
    ∧ seed !! "rsvp" = Some (Map rsvp_seed)
    ∧ published w1 = (published w ++ [("NEW_EVENT_CREATED", payload)])%list
    ∧ ∀ (later : Z) (event2 staged2 : gmap string value)
        (organizer2 : Organizer) (uid2 mailto2 : string),
        staged2 !! "original_uid" = Some (Str original_uid) →
        staged2 !! "uid" = Some (Str uid2) →
        staged2 !! "mailto" = Some (Str mailto2) →
        staged2 !! "pk" = Some (Str ("event#" +:+ uid2)) →
        staged2 !! "sk" = Some (Str ("event#" +:+ uid2)) →
        event2 !! "mailto" = Some (Str mailto2) →
        ∃ w2,
          create_new_event_record event2 staged2 organizer2
            (with_utcnow later w1)
          = (Returns (ErrorResponse "TransactionCanceledException"), w2)
          ∧ db w2 = db w1
          ∧ db w2 !! original_event_key original_uid = Some lk
          ∧ db w2 !! event_key uid = Some staged
          ∧ db w2 !! event_statistics_key uid = Some seed
          ∧ (db w2 !! organizer_statistics_key mailto) ≫= (.!! "events")
            = Some (Num (count (default (Num 0) (os !! "events")) + 1))
          ∧ published w2 = (published w1 ++ [("EVENT_UPDATED", Map event2)])%list
          ∧ logged w2
            = (logged w1 ++ [Warning "Event record already exists"])%list.
Proof.
  intros Hou Hu Hm Hpk Hsk Hem Hsm Hfresh Hos Hevents.
  destruct (create_first w event staged organizer original_uid uid mailto
              os sm) as (lk & seed & payload & Hlk & Hseed & Hrun); try done.
  exists (with_published (published w ++ [("NEW_EVENT_CREATED", payload)])
            (with_db
               (<[organizer_statistics_key mailto :=
                    <["events" :=
                        Num (count (default (Num 0) (os !! "events")) + 1)]>
                      os]>
               (<[event_statistics_key uid := seed]>
               (<[event_key uid := staged]>
               (<[original_event_key original_uid := lk]> (db w))))) w)),
    lk, seed, payload.
  split; [exact Hrun|]. split; [reflexivity|].
  unfold get_original_event_record_from, get_statistics_record_for,
    subscript_S, subscript, mbind, M_bind, mret, M_ret in Hlk, Hseed.
  rewrite Hou, Hu, Hm in Hlk. rewrite Hu, Hm in Hseed.
  injection Hlk as <-. injection Hseed as <-.
  split; [by lookups|]. split; [by lookups|]. split; [by lookups|].
  split; [reflexivity|].
  intros later event2 staged2 organizer2 uid2 mailto2
    Hou2 Hu2 Hm2 Hpk2 Hsk2 Hem2.
  eexists. split.
  { eapply (create_again _ event2 staged2 organizer2 original_uid uid2
              mailto2); try done.
    simpl. rewrite !lookup_insert_ne by key_neq. apply lookup_insert_eq. }
  simpl. split; [reflexivity|].
  split; [rewrite !lookup_insert_ne by key_neq; apply lookup_insert_eq|].
  split; [rewrite !lookup_insert_ne by key_neq; apply lookup_insert_eq|].
  split; [rewrite !lookup_insert_ne by key_neq; apply lookup_insert_eq|].
  split; [|split; reflexivity].
  rewrite lookup_insert_eq. simpl. apply lookup_insert_eq.
Qed.

Lemma create_is_idempotent_witness :
  ∃ w1 lk seed payload,
    create_new_event_record Sample.party Sample.party Sample.organizer
      Sample.registered = (Returns Committed, w1)
    ∧ db w1
      = <[organizer_statistics_key "a@x.com" :=
            <["events" :=
                Num (count (default (Num 0)
                              (Sample.statistics "organizer#a@x.com"
                                 "organizer_statistics#a@x.com" !! "events"))
                     + 1)]>
              (Sample.statistics "organizer#a@x.com"
                 "organizer_statistics#a@x.com")]>
        (<[event_statistics_key "E1" := seed]>
        (<[event_key "E1" := Sample.party]>
        (<[original_event_key "X" := lk]> (db Sample.registered))))
    ∧ lk !! "uid" = Some (Str "E1")
    ∧ seed !! "attendees" = Some (Num 0)
    ∧ seed !! "rsvp" = Some (Map rsvp_seed)
    ∧ published w1
      = (published Sample.registered
         ++ [("NEW_EVENT_CREATED", payload)])%list
    ∧ ∀ (later : Z) (event2 staged2 : gmap string value)
        (organizer2 : Organizer) (uid2 mailto2 : string),
        staged2 !! "original_uid" = Some (Str "X") →
        staged2 !! "uid" = Some (Str uid2) →
        staged2 !! "mailto" = Some (Str mailto2) →
        staged2 !! "pk" = Some (Str ("event#" +:+ uid2)) →
        staged2 !! "sk" = Some (Str ("event#" +:+ uid2)) →
        event2 !! "mailto" = Some (Str mailto2) →
        ∃ w2,
          create_new_event_record event2 staged2 organizer2
            (with_utcnow later w1)
          = (Returns (ErrorResponse "TransactionCanceledException"), w2)
          ∧ db w2 = db w1
          ∧ db w2 !! original_event_key "X" = Some lk
          ∧ db w2 !! event_key "E1" = Some Sample.party
          ∧ db w2 !! event_statistics_key "E1" = Some seed
          ∧ (db w2 !! organizer_statistics_key "a@x.com") ≫= (.!! "events")
            = Some (Num (count (default (Num 0)
                                  (Sample.statistics "organizer#a@x.com"
                                     "organizer_statistics#a@x.com"
                                   !! "events")) + 1))
          ∧ published w2
            = (published w1 ++ [("EVENT_UPDATED", Map event2)])%list
          ∧ logged w2
            = (logged w1 ++ [Warning "Event record already exists"])%list.
Proof.
  apply (create_is_idempotent Sample.registered Sample.party Sample.party
           Sample.organizer "X" "E1" "a@x.com"
           (Sample.statistics "organizer#a@x.com"
              "organizer_statistics#a@x.com")
           (Sample.statistics "organizer#a@x.com"
              "organizer_statistics#a@x.com")).
  - reflexivity.
  - reflexivity.
  - reflexivity.
  - reflexivity.
  - reflexivity.
  - reflexivity.
  - reflexivity.
  - reflexivity.
  - reflexivity.
  - reflexivity.
Defined.
End create_claims.
